(** * A shallow embedding of the tool-calling chatbot

    The development embeds the two Python programs of the repository,
    [chatbot.py] (local tools) and [client.py] (tools served by an MCP
    tool-host), and states the properties of the tool-calling bridge
    against them.

    Layout: the Python data model (strings, values, [str], [repr],
    [str.join], [json.dumps]), an effect monad for traces and exceptions,
    the two programs, and then the theorems. *)

From Stdlib Require Import ZArith Lia Ascii.
From stdpp Require Import base tactics option list strings pretty gmap.

Set Warnings "-register-all".

(** ** Python strings

    A Python [str] is a sequence of code points.  It is modelled by Rocq's
    [string], whose characters are read as the code points U+0000..U+00FF;
    the library functions below follow CPython on that range. *)

Module PyStr.

Definition code (c : ascii) : nat := nat_of_ascii c.

Definition between (lo hi n : nat) : bool := (lo <=? n)%nat && (n <=? hi)%nat.

(** [str.isspace] on one code point. *)
Definition isspace (c : ascii) : bool :=
  let n := code c in
  between 9 13 n || between 28 32 n || (n =? 133)%nat || (n =? 160)%nat.

Fixpoint lstrip (s : string) : string :=
  match s with
  | EmptyString => EmptyString
  | String c r => if isspace c then lstrip r else s
  end.

Fixpoint rstrip (s : string) : string :=
  match s with
  | EmptyString => EmptyString
  | String c r =>
      match rstrip r with
      | EmptyString => if isspace c then EmptyString else String c EmptyString
      | r' => String c r'
      end
  end.

(** [s.strip()] *)
Definition strip (s : string) : string := rstrip (lstrip s).

Definition lower_char (c : ascii) : ascii :=
  let n := code c in
  if between 65 90 n || (between 192 222 n && negb (n =? 215)%nat)
  then ascii_of_nat (n + 32) else c.

(** [s.lower()] *)
Fixpoint lower (s : string) : string :=
  match s with
  | EmptyString => EmptyString
  | String c r => String (lower_char c) (lower r)
  end.

(** [sep.join(items)] on items already known to be strings. *)
Fixpoint join (sep : string) (items : list string) : string :=
  match items with
  | [] => ""
  | [x] => x
  | x :: rest => x +:+ sep +:+ join sep rest
  end.

Definition hex_digit (n : nat) : ascii :=
  if (n <? 10)%nat then ascii_of_nat (48 + n) else ascii_of_nat (87 + n).

(** the two lower-case hexadecimal digits of a code point below 256 *)
Definition hex2 (c : ascii) : string :=
  String (hex_digit (code c / 16)) (String (hex_digit (code c mod 16)) "").

Definition LF : ascii := ascii_of_nat 10.
Definition CR : ascii := ascii_of_nat 13.
Definition TAB : ascii := ascii_of_nat 9.
Definition BS : ascii := ascii_of_nat 8.
Definition FF : ascii := ascii_of_nat 12.
Definition backslash : ascii := ascii_of_nat 92.
Definition dquote : ascii := ascii_of_nat 34.
Definition squote : ascii := ascii_of_nat 39.

Definition chr (c : ascii) : string := String c "".

Fixpoint contains (c : ascii) (s : string) : bool :=
  match s with
  | EmptyString => false
  | String d r => if Ascii.eqb c d then true else contains c r
  end.

(** [str.isprintable] on one code point. *)
Definition isprintable (c : ascii) : bool :=
  let n := code c in
  between 32 126 n || (between 161 255 n && negb (n =? 173)%nat).

Definition repr_char (quote c : ascii) : string :=
  if Ascii.eqb c quote || Ascii.eqb c backslash then String backslash (chr c)
  else if Ascii.eqb c TAB then String backslash "t"
  else if Ascii.eqb c LF then String backslash "n"
  else if Ascii.eqb c CR then String backslash "r"
  else if isprintable c then chr c
  else String backslash ("x" +:+ hex2 c).

Fixpoint repr_body (quote : ascii) (s : string) : string :=
  match s with
  | EmptyString => EmptyString
  | String c r => repr_char quote c +:+ repr_body quote r
  end.

(** [repr(s)] for a string: single quotes, unless the string holds a single
    quote and no double quote. *)
Definition repr (s : string) : string :=
  let quote := if contains squote s && negb (contains dquote s)
               then dquote else squote in
  String quote (repr_body quote s +:+ chr quote).

(** One character of a JSON string under [ensure_ascii=True]. *)
Definition json_char (c : ascii) : string :=
  if Ascii.eqb c dquote || Ascii.eqb c backslash then String backslash (chr c)
  else if Ascii.eqb c LF then String backslash "n"
  else if Ascii.eqb c CR then String backslash "r"
  else if Ascii.eqb c TAB then String backslash "t"
  else if Ascii.eqb c BS then String backslash "b"
  else if Ascii.eqb c FF then String backslash "f"
  else if between 32 126 (code c) then chr c
  else String backslash ("u00" +:+ hex2 c).

Fixpoint json_body (s : string) : string :=
  match s with
  | EmptyString => EmptyString
  | String c r => json_char c +:+ json_body r
  end.

(** [json.encoder.py_encode_basestring_ascii] *)
Definition json_string (s : string) : string :=
  String dquote (json_body s +:+ chr dquote).


End PyStr.

(** ** Python values

    The values a tool handler hands back: [None], booleans, integers,
    strings, lists, and dicts with string keys in insertion order.  A
    well-formed dict has distinct keys; no statement below needs it. *)

Definition pydict (V : Type) : Type := list (string * V).

Inductive pyval : Type :=
| VNone
| VBool (b : bool)
| VInt (n : Z)
| VStr (s : string)
| VList (items : list pyval)
| VDict (entries : list (string * pyval)).

(** [d.get(k)] *)
Fixpoint dict_get {V} (k : string) (d : pydict V) : option V :=
  match d with
  | [] => None
  | (k', v) :: r => if String.eqb k k' then Some v else dict_get k r
  end.

Definition dict_keys {V} (d : pydict V) : list string := List.map fst d.

(** [type(v).__name__] *)
Definition type_name (v : pyval) : string :=
  match v with
  | VNone => "NoneType"
  | VBool _ => "bool"
  | VInt _ => "int"
  | VStr _ => "str"
  | VList _ => "list"
  | VDict _ => "dict"
  end.

(** [bool(v)] *)
Definition truthy (v : pyval) : bool :=
  match v with
  | VNone => false
  | VBool b => b
  | VInt n => negb (n =? 0)%Z
  | VStr s => negb (String.eqb s "")
  | VList items => match items with [] => false | _ => true end
  | VDict entries => match entries with [] => false | _ => true end
  end.

(** [repr(v)] *)
Fixpoint py_repr (v : pyval) : string :=
  match v with
  | VNone => "None"
  | VBool true => "True"
  | VBool false => "False"
  | VInt n => pretty n
  | VStr s => PyStr.repr s
  | VList items => "[" +:+ PyStr.join ", " (List.map py_repr items) +:+ "]"
  | VDict entries =>
      "{" +:+ PyStr.join ", "
                (List.map (λ '(k, x), PyStr.repr k +:+ ": " +:+ py_repr x) entries)
          +:+ "}"
  end.

(** [str(v)]: a string is itself, everything else is its [repr]. *)
Definition py_str (v : pyval) : string :=
  match v with
  | VStr s => s
  | _ => py_repr v
  end.

Fixpoint spaces (n : nat) : string :=
  match n with
  | O => ""
  | S m => " " +:+ spaces m
  end.

(** the line break of [json.dumps(..., indent=2)] at a nesting level *)
Definition newline_indent (level : nat) : string :=
  String PyStr.LF (spaces (2 * level)).

(** [json.dumps(v, indent=2)] at a nesting level: item separator [","],
    key separator [": "], empty containers without a line break. *)
Fixpoint json_encode (level : nat) (v : pyval) : string :=
  match v with
  | VNone => "null"
  | VBool true => "true"
  | VBool false => "false"
  | VInt n => pretty n
  | VStr s => PyStr.json_string s
  | VList [] => "[]"
  | VList items =>
      "[" +:+ newline_indent (S level)
          +:+ PyStr.join ("," +:+ newline_indent (S level))
                (List.map (json_encode (S level)) items)
          +:+ newline_indent level +:+ "]"
  | VDict [] => "{}"
  | VDict entries =>
      "{" +:+ newline_indent (S level)
          +:+ PyStr.join ("," +:+ newline_indent (S level))
                (List.map (λ '(k, x), PyStr.json_string k +:+ ": "
                                       +:+ json_encode (S level) x) entries)
          +:+ newline_indent level +:+ "}"
  end.

Definition json_dumps (v : pyval) : string := json_encode 0 v.

(** ** Exceptions, events and the effect monad *)

Inductive exn_class : Type :=
| KeyError | TypeError | ValueError | UnboundLocalError | IndexError | EOFError
| OtherException
| KeyboardInterrupt | SystemExit | CancelledError.

(** An exception: its class and [str(e)]. *)
Record exn : Type := Exn { exn_kind : exn_class; exn_text : string }.

(** [sys.int_max_str_digits] as CPython sets it (3.11 on): [str] and [repr]
    of an integer of more decimal digits raise a [ValueError], and so does
    [json.dumps] of a value that holds one. *)
Definition int_max_str_digits : Z := 4300.

Definition printable_int (n : Z) : bool := (Z.abs n <? 10 ^ int_max_str_digits)%Z.
Arguments printable_int : simpl never.

Fixpoint printable_ints (v : pyval) : bool :=
  match v with
  | VInt n => printable_int n
  | VList items => forallb printable_ints items
  | VDict entries => forallb (λ entry, printable_ints entry.2) entries
  | _ => true
  end.

Definition int_too_long : exn :=
  Exn ValueError
    ("Exceeds the limit (4300 digits) for integer string conversion; "
     +:+ "use sys.set_int_max_str_digits() to increase the limit").

(** [isinstance(e, Exception)]: the last three classes derive from
    [BaseException] only, and [except Exception] lets them through. *)
Definition is_Exception (e : exn) : bool :=
  match exn_kind e with
  | KeyboardInterrupt | SystemExit | CancelledError => false
  | _ => true
  end.

Inductive resource : Type := StdioChannel | Session.

(** What a run does to the outside, in order. *)
Inductive event : Type :=
| Prompt (text : string)                          (* input(text) *)
| Print (text : string)                           (* print(text) *)
| Generate (query : string)                       (* models.generate_content *)
| CallTool (name : string) (args : pydict pyval)  (* session.call_tool *)
| Enter (r : resource)                            (* __aenter__ returned *)
| Exit (r : resource).                            (* __aexit__ *)

(** How a computation ends: a value, an exception, or not within the fuel. *)
Inductive outcome (A : Type) : Type :=
| Ret (a : A)
| Raise (e : exn)
| Hang.
Arguments Ret {A} a.
Arguments Raise {A} e.
Arguments Hang {A}.

(** The state: the world of the external services and the lines still to
    be read from standard input. *)
Record state (W : Type) : Type := State { world : W; stdin : list string }.
Arguments State {W} world stdin.
Arguments world {W} s.
Arguments stdin {W} s.

Definition M (W A : Type) : Type := state W → state W * list event * outcome A.

#[global] Instance M_ret {W} : MRet (M W) := λ A a s, (s, [], Ret a).

#[global] Instance M_bind {W} : MBind (M W) := λ A B k m s,
  match m s with
  | (s1, t1, Ret a) => let '(s2, t2, r) := k a s1 in (s2, t1 ++ t2, r)
  | (s1, t1, Raise e) => (s1, t1, Raise e)
  | (s1, t1, Hang) => (s1, t1, Hang)
  end.

Definition raise {W A} (e : exn) : M W A := λ s, (s, [], Raise e).

(** a call that has returned [a] or raised [e] *)
Definition settle {W A} (r : exn + A) : M W A := λ s,
  match r with
  | inl e => (s, [], Raise e)
  | inr a => (s, [], Ret a)
  end.
Definition hang {W A} : M W A := λ s, (s, [], Hang).
Definition emit {W} (ev : event) : M W unit := λ s, (s, [ev], Ret tt).
Definition print {W} (text : string) : M W unit := emit (Print text).

(** [input(prompt)] *)
Definition input {W} (prompt : string) : M W string := λ s,
  match stdin s with
  | [] => (s, [Prompt prompt], Raise (Exn EOFError "EOF when reading a line"))
  | line :: rest => (State (world s) rest, [Prompt prompt], Ret line)
  end.

(** A call to an external service, which answers or raises. *)
Definition ext {W A} (f : W → W * (exn + A)) : M W A := λ s,
  match f (world s) with
  | (w, inl e) => (State w (stdin s), [], Raise e)
  | (w, inr a) => (State w (stdin s), [], Ret a)
  end.

(** [try: body  except Exception as e: handler(e)] *)
Definition try_except {W A} (body : M W A) (handler : exn → M W A) : M W A := λ s,
  match body s with
  | (s1, t1, Raise e) =>
      if is_Exception e
      then let '(s2, t2, r) := handler e s1 in (s2, t1 ++ t2, r)
      else (s1, t1, Raise e)
  | r => r
  end.

(** [async with enter as r: body]: when entering raises, the body does not
    run and nothing is released; otherwise the exit runs once, when the body
    returns or raises. *)
Definition with_ctx {W A} (r : resource) (enter : M W unit) (body : M W A) : M W A := λ s,
  match enter s with
  | (s1, t1, Ret _) =>
      match body s1 with
      | (s2, t2, Hang) => (s2, t1 ++ [Enter r] ++ t2, Hang)
      | (s2, t2, res) => (s2, t1 ++ [Enter r] ++ t2 ++ [Exit r], res)
      end
  | (s1, t1, Raise e) => (s1, t1, Raise e)
  | (s1, t1, Hang) => (s1, t1, Hang)
  end.

(** ** The external services *)

(** The first part of the first candidate of a model response: a function
    call, or none and then [response.text]. *)
Inductive response : Type :=
| FunctionCall (name : string) (args : pydict pyval)
| PlainText (text : pyval).

(** [types.Tool(function_declarations=...)], once the library has accepted
    the declarations *)
Record tool : Type := Tool { function_declarations : list pyval }.

(** A tool as the tool-host lists it. *)
Record remote_tool : Type := RemoteTool {
  name : string;
  description : pyval;
  inputSchema : pydict pyval
}.

(** The result of [session.call_tool]: the texts of its content parts. *)
Record call_tool_result : Type := CallToolResult { content : list string }.

(** A local tool function: called with keyword arguments, it prints lines
    and returns a value or raises. *)
Definition tool_function (W : Type) : Type :=
  pydict pyval → W → W * list string * (exn + pyval).

Record Env (W : Type) : Type := {
  (* the model service; a failure to build the client, the tool of
     chatbot.py or the configuration of the request, or to read the first
     part of the first candidate, is a raise of this call *)
  generate_content : list tool → string → W → W * (exn + response);
  (* types.Tool(function_declarations=...) validates the declarations: the
     exception it raises for those it refuses *)
  validate : list pyval → option exn;
  (* chatbot.py: the two tools, which go to arXiv and the file system *)
  search_papers : tool_function W;
  extract_info : tool_function W;
  (* client.py: the tool-host *)
  stdio_client : W → W * (exn + unit);
  ClientSession : W → W * (exn + unit);
  initialize : W → W * (exn + unit);
  list_tools : W → W * (exn + list remote_tool);
  call_tool : string → pydict pyval → W → W * (exn + call_tool_result)
}.
Arguments generate_content {W} _ _ _ _.
Arguments validate {W} _ _.
Arguments search_papers {W} _ _ _.
Arguments extract_info {W} _ _ _.
Arguments stdio_client {W} _ _.
Arguments ClientSession {W} _ _.
Arguments initialize {W} _ _.
Arguments list_tools {W} _ _.
Arguments call_tool {W} _ _ _ _.

(** What a handler of [execute_tool] hands back when it is no value of the
    data model (a float, a tuple, a set, bytes, a date, an object of any
    class, or a list or dict that holds one): its shape, which is all
    [execute_tool] looks at, and the outcome of the one library call
    [execute_tool] makes on that shape. *)
Inductive foreign : Type :=
| ForeignList (joined : exn + string)       (* a list: [",".join(result)] *)
| ForeignDict (dumped : exn + string)       (* a dict: [json.dumps(result, indent=2)] *)
| ForeignValue (converted : exn + string).  (* neither: [str(result)] *)

(** The raw outcome of a handler: any Python value. *)
Inductive raw : Type :=
| Value (v : pyval)
| Foreign (o : foreign).
Coercion Value : pyval >-> raw.

(** A handler of the mapping of [execute_tool]: called with keyword
    arguments, it prints lines and returns any value or raises. *)
Definition handler (W : Type) : Type :=
  pydict pyval → W → W * list string * (exn + raw).

(** the call of a local tool function with the keyword arguments [kwargs] *)
Definition call {W} (f : tool_function W) (kwargs : pydict pyval) : M W pyval := λ s,
  match f kwargs (world s) with
  | (w, lines, inl e) => (State w (stdin s), List.map Print lines, Raise e)
  | (w, lines, inr v) => (State w (stdin s), List.map Print lines, Ret v)
  end.

(** the call of a handler with the keyword arguments [kwargs] *)
Definition call_handler {W} (f : handler W) (kwargs : pydict pyval) : M W raw := λ s,
  match f kwargs (world s) with
  | (w, lines, inl e) => (State w (stdin s), List.map Print lines, Raise e)
  | (w, lines, inr r) => (State w (stdin s), List.map Print lines, Ret r)
  end.

Definition generate {W} (E : Env W) (tools : list tool) (query : string) : M W response :=
  emit (Generate query);; ext (generate_content E tools query).

(** what the loops decide after one pass through their body *)
Inductive flow : Type := Continue | Break.

(** ** chatbot.py *)

Module Chatbot.

Definition TOOLS : list pyval := [
  VDict [
    ("name", VStr "search_papers");
    ("description", VStr "Search for papers on arXiv");
    ("parameters", VDict [
      ("type", VStr "object");
      ("properties", VDict [
        ("topic", VDict [
          ("type", VStr "string");
          ("description", VStr "The topic to search for")]);
        ("max_results", VDict [
          ("type", VStr "integer");
          ("description", VStr "Maximum number of results to retrieve");
          ("default", VInt 5)])]);
      ("required", VList [VStr "topic"])])];
  VDict [
    ("name", VStr "extract_info");
    ("description", VStr "Search for information about a specific paper.");
    ("parameters", VDict [
      ("type", VStr "object");
      ("properties", VDict [
        ("paper_id", VDict [
          ("type", VStr "string");
          ("description", VStr "The ID of the paper to look for.")])]);
      ("required", VList [VStr "paper_id"])])]
].

(** The items of [sep.join(items)]: every item has to be a [str]; the first
    one that is not raises a [TypeError] naming its index and type. *)
Fixpoint str_items (i : nat) (items : list pyval) : exn + list string :=
  match items with
  | [] => inr []
  | VStr s :: rest =>
      match str_items (S i) rest with
      | inl e => inl e
      | inr l => inr (s :: l)
      end
  | v :: _ =>
      inl (Exn TypeError ("sequence item " +:+ pretty i +:+ ": expected str instance, "
                          +:+ type_name v +:+ " found"))
  end.

Definition sentinel : string :=
  "The operation completed but didn't return any results.".

(** the outcome of the library call [execute_tool] makes on a value outside
    the data model *)
Definition library_outcome (o : foreign) : exn + string :=
  match o with
  | ForeignList joined => joined
  | ForeignDict dumped => dumped
  | ForeignValue converted => converted
  end.

(** the message of the [UnboundLocalError] for [result] (CPython 3.11 on) *)
Definition result_unbound : exn :=
  Exn UnboundLocalError
    "cannot access local variable 'result' where it is not associated with a value".

Section WithEnv.
Context {W : Type} (E : Env W).

(** The [if]/[elif] chain of [execute_tool] on the handler's result.  None
    of the three library calls is guarded: what [",".join], [json.dumps] or
    [str] raises leaves [execute_tool]. *)
Definition normalize (result : raw) : M W string :=
  match result with
  | Value VNone => mret sentinel
  | Value (VList items) =>
      match str_items 0 items with
      | inl e => raise e
      | inr l => mret (PyStr.join "," l)
      end
  | Value (VDict entries) =>
      if printable_ints (VDict entries) then mret (json_dumps (VDict entries))
      else raise int_too_long
  | Value v =>
      if printable_ints v then mret (py_str v) else raise int_too_long
  | Foreign o => settle (library_outcome o)
  end.

Definition execute_tool (tool_name : string) (tool_args : pydict pyval)
    (mapping_tool_function : gmap string (handler W)) : M W string :=
  match mapping_tool_function !! tool_name with
  | None => raise (Exn KeyError (PyStr.repr tool_name))
  | Some f => result ← call_handler f tool_args; normalize result
  end.

Definition process_query (query : string) : M W pyval :=
  response ← generate E [Tool TOOLS] query;
  match response with
  | FunctionCall name args =>
      print ("Function to call: " +:+ name);;
      print ("Arguments: " +:+ py_str (VDict args));;
      if String.eqb name "search_papers" then call (search_papers E) args
      else if String.eqb name "extract_info" then call (extract_info E) args
      else raise result_unbound
  | PlainText text =>
      print "No function call found in the response.";;
      print (py_str text);;
      mret VNone
  end.

(** One pass through the body of the [while True] loop. *)
Definition chat_turn : M W flow :=
  try_except
    (line ← input (String PyStr.LF "Query: ");
     let query := PyStr.strip line in
     if String.eqb (PyStr.lower query) "quit" then mret Break
     else
       result ← process_query query;
       (if truthy result
        then print "Result:";; print (py_str result)
        else mret tt);;
       mret Continue)
    (λ e, print (String PyStr.LF (" Error: " +:+ exn_text e));; mret Continue).

Fixpoint chat_while (fuel : nat) : M W unit :=
  match fuel with
  | O => hang
  | S n =>
      next ← chat_turn;
      match next with
      | Break => mret tt
      | Continue => chat_while n
      end
  end.

Definition chat_loop (fuel : nat) : M W unit :=
  print "Type your queries or 'quit' to exit.";;
  chat_while fuel.

End WithEnv.
End Chatbot.

(** ** client.py *)

Module Client.

(** The keys the dict comprehension leaves out of [inputSchema]. *)
Definition stripped_keys : list string := ["additionalProperties"; "$schema"].

Definition kept (k : string) : bool :=
  negb (existsb (String.eqb k) stripped_keys).

(** [{k: v for k, v in inputSchema.items() if k not in [...]}] *)
Definition parameters_of (inputSchema : pydict pyval) : pydict pyval :=
  List.filter (λ '(k, _), kept k) inputSchema.

(** The function declaration built for one listed tool. *)
Definition declaration_of (t : remote_tool) : pyval :=
  VDict [("name", VStr (name t));
         ("description", description t);
         ("parameters", VDict (parameters_of (inputSchema t)))].

(** the tool built from the declaration of a listed tool *)
Definition tool_of (t : remote_tool) : tool := Tool [declaration_of t].

(** [result.content[0].text] *)
Definition first_text {W} (result : call_tool_result) : M W string :=
  match content result with
  | [] => raise (Exn IndexError "list index out of range")
  | text :: _ => mret text
  end.

Section WithEnv.
Context {W : Type} (E : Env W).

Definition process_query (available_tools : list tool) (query : string)
    : M W (option call_tool_result) :=
  response ← generate E available_tools query;
  match response with
  | FunctionCall name args =>
      print ("Function to call: " +:+ name);;
      print ("Arguments: " +:+ py_str (VDict args));;
      result ← (emit (CallTool name args);; ext (call_tool E name args));
      print "Result:";;
      text ← first_text result;
      print text;;
      mret (Some result)
  | PlainText text =>
      print "No Function called";;
      print (py_str text);;
      mret None
  end.

(** One pass through the body of the [while True] loop. *)
Definition chat_turn (available_tools : list tool) : M W flow :=
  try_except
    (line ← input (String PyStr.LF "Query: ");
     let query := PyStr.strip line in
     if String.eqb (PyStr.lower query) "quit" then mret Break
     else
       process_query available_tools query;;
       print (PyStr.chr PyStr.LF);;
       mret Continue)
    (λ e, print (String PyStr.LF ("Error: " +:+ exn_text e));; mret Continue).

Fixpoint chat_while (available_tools : list tool) (fuel : nat) : M W unit :=
  match fuel with
  | O => hang
  | S n =>
      next ← chat_turn available_tools;
      match next with
      | Break => mret tt
      | Continue => chat_while available_tools n
      end
  end.

Definition chat_loop (available_tools : list tool) (fuel : nat) : M W unit :=
  print (String PyStr.LF "MCP Chatbot Started!");;
  print "Type your queries or 'quit' to exit.";;
  chat_while available_tools fuel.

(** [types.Tool(function_declarations=[{...}])] for one listed tool: the
    library validates the declaration, and raises when it refuses it. *)
Definition new_tool (t : remote_tool) : exn + tool :=
  match validate E [declaration_of t] with
  | Some e => inl e
  | None => inr (tool_of t)
  end.

(** The list comprehension over [response.tools], in their order: the first
    refusal ends it. *)
Fixpoint new_tools (tools : list remote_tool) : exn + list tool :=
  match tools with
  | [] => inr []
  | t :: rest =>
      match new_tool t with
      | inl e => inl e
      | inr x =>
          match new_tools rest with
          | inl e => inl e
          | inr xs => inr (x :: xs)
          end
      end
  end.

Definition connect_to_server_and_run (fuel : nat) : M W unit :=
  with_ctx StdioChannel (ext (stdio_client E))
    (with_ctx Session (ext (ClientSession E))
       (ext (initialize E);;
        tools ← ext (list_tools E);
        print (String PyStr.LF "Connected to server with tools: "
               +:+ py_str (VList (List.map (λ t, VStr (name t)) tools)));;
        available_tools ← settle (new_tools tools);
        chat_loop available_tools fuel)).

End WithEnv.
End Client.

(** ** The tools of chatbot.py: arXiv and the papers directory

    [search_papers] and [extract_info] work on the directory [papers] and
    on the arXiv service.  Both are outside the program: the operations on
    them are parameters, and a run records the operations it asks for. *)

Module Papers.

Definition PAPER_DIR : string := "papers".

Definition sep : ascii := "/"%char.

Definition starts_with_sep (p : string) : bool :=
  match p with
  | EmptyString => false
  | String c _ => Ascii.eqb c sep
  end.

Fixpoint ends_with_sep (p : string) : bool :=
  match p with
  | EmptyString => false
  | String c EmptyString => Ascii.eqb c sep
  | String _ r => ends_with_sep r
  end.

(** [os.path.join(a, b)] of [posixpath]: an absolute [b] replaces [a], and
    the separator is added unless [a] is empty or ends with it. *)
Definition path_join (a b : string) : string :=
  if starts_with_sep b then b
  else if String.eqb a "" || ends_with_sep a then a +:+ b
  else a +:+ String sep b.

Definition space : ascii := " "%char.
Definition underscore : ascii := "_"%char.

Definition replace_char (c : ascii) : ascii :=
  if Ascii.eqb c space then underscore else c.

(** [s.replace(" ", "_")] *)
Fixpoint replace_spaces (s : string) : string :=
  match s with
  | EmptyString => EmptyString
  | String c r => String (replace_char c) (replace_spaces r)
  end.

(** the directory of a topic and the file of a directory *)
Definition topic_dir (topic : string) : string :=
  path_join PAPER_DIR (replace_spaces (PyStr.lower topic)).

Definition info_file (dir : string) : string :=
  path_join dir "papers_info.json".

(** What the program reads of an [arxiv.Result]: [get_short_id()], [title],
    the names of [authors], [summary], [pdf_url] and
    [str(published.date())]. *)
Record paper : Type := Paper {
  short_id : string;
  title : string;
  authors : list string;
  summary : string;
  pdf_url : pyval;
  published : string
}.

Definition paper_info (p : paper) : pyval :=
  VDict [("title", VStr (title p));
         ("authors", VList (List.map VStr (authors p)));
         ("summary", VStr (summary p));
         ("pdf_url", pdf_url p);
         ("published", VStr (published p))].

(** [d[k] = v] on a dict: the value of a key that is there is replaced in
    its place, a new key goes to the end. *)
Fixpoint dict_set {V} (k : string) (v : V) (d : pydict V) : pydict V :=
  match d with
  | [] => [(k, v)]
  | (k', v') :: r =>
      if String.eqb k k' then (k, v) :: r else (k', v') :: dict_set k v r
  end.

(** [papers_info[k] = info] on whatever [json.load] returned *)
Definition store (papers_info : pyval) (k : string) (info : pyval) : exn + pyval :=
  match papers_info with
  | VDict d => inr (VDict (dict_set k info d))
  | VList _ => inl (Exn TypeError "list indices must be integers or slices, not str")
  | VStr _ => inl (Exn TypeError "'str' object does not support item assignment")
  | VInt _ => inl (Exn TypeError "'int' object does not support item assignment")
  | VBool _ => inl (Exn TypeError "'bool' object does not support item assignment")
  | VNone => inl (Exn TypeError "'NoneType' object does not support item assignment")
  end.

(** [needle in s] for two strings *)
Fixpoint is_prefix (needle s : string) : bool :=
  match needle, s with
  | EmptyString, _ => true
  | String c n, String d r => Ascii.eqb c d && is_prefix n r
  | String _ _, EmptyString => false
  end.

Fixpoint is_substring (needle s : string) : bool :=
  is_prefix needle s
  || match s with
     | EmptyString => false
     | String _ r => is_substring needle r
     end.

Definition equals_str (k : string) (v : pyval) : bool :=
  match v with
  | VStr t => String.eqb k t
  | _ => false
  end.

(** [papers_info[paper_id]] under [if paper_id in papers_info], on whatever
    [json.load] returned: the entry, none, or the [TypeError] of a value that
    is no dict (with the messages of CPython 3.11 on). *)
Definition lookup_info (papers_info : pyval) (paper_id : string) : exn + option pyval :=
  match papers_info with
  | VDict d => inr (dict_get paper_id d)
  | VList items =>
      if existsb (equals_str paper_id) items
      then inl (Exn TypeError "list indices must be integers or slices, not str")
      else inr None
  | VStr s =>
      if is_substring paper_id s
      then inl (Exn TypeError "string indices must be integers, not 'str'")
      else inr None
  | VInt _ => inl (Exn TypeError "argument of type 'int' is not iterable")
  | VBool _ => inl (Exn TypeError "argument of type 'bool' is not iterable")
  | VNone => inl (Exn TypeError "argument of type 'NoneType' is not iterable")
  end.

Definition not_found_message (paper_id : string) : string :=
  "There's no saved information related to paper " +:+ paper_id +:+ ".".

(** [open(path, "r")] and [json.load]: the value, one of the two exceptions
    the program catches (with [str(e)]), or another exception. *)
Inductive load_result : Type :=
| Loaded (v : pyval)
| NotFound (msg : string)      (* FileNotFoundError *)
| Malformed (msg : string)     (* json.JSONDecodeError *)
| LoadError (e : exn).

(** The iteration over [client.results(search)], unrolled: each paper with
    the world after it was fetched, up to the end of the results or to the
    exception that ends them. *)
Inductive fetched (W : Type) : Type :=
| Stop (w : W)
| Fail (w : W) (e : exn)
| Yield (w : W) (p : paper) (rest : fetched W).
Arguments Stop {W} w.
Arguments Fail {W} w e.
Arguments Yield {W} w p rest.

Record Host (W : Type) : Type := {
  makedirs : string → W → W * (exn + unit);        (* os.makedirs(p, exist_ok=True) *)
  load_json : string → W → W * load_result;
  dump_json : string → string → W → W * (exn + unit);  (* open(p, "w"), json.dump *)
  listdir : string → W → W * (exn + list string);
  isdir : string → W → W * bool;
  isfile : string → W → W * bool;
  results : string → Z → W → fetched W
}.
Arguments makedirs {W} _ _ _.
Arguments load_json {W} _ _ _.
Arguments dump_json {W} _ _ _ _.
Arguments listdir {W} _ _ _.
Arguments isdir {W} _ _ _.
Arguments isfile {W} _ _ _.
Arguments results {W} _ _ _ _.

(** What a tool asks of the outside, in order. *)
Inductive op : Type :=
| Makedirs (path : string)
| Load (path : string)
| Dump (path text : string)
| Listdir (path : string)
| Search (query : string) (max_results : Z)
| Say (text : string).                             (* print(text) *)

Definition T (W A : Type) : Type := W → W * list op * (exn + A).

#[global] Instance T_ret {W} : MRet (T W) := λ A a w, (w, [], inr a).

#[global] Instance T_bind {W} : MBind (T W) := λ A B k m w,
  match m w with
  | (w1, o1, inr a) => let '(w2, o2, r) := k a w1 in (w2, o1 ++ o2, r)
  | (w1, o1, inl e) => (w1, o1, inl e)
  end.

Definition fail {W A} (e : exn) : T W A := λ w, (w, [], inl e).
Definition say {W} (text : string) : T W unit := λ w, (w, [Say text], inr tt).

(** an operation that answers or raises, recorded as [o] *)
Definition ask {W A} (o : op) (f : W → W * (exn + A)) : T W A := λ w,
  let '(w', r) := f w in (w', [o], r).

(** an operation that only answers *)
Definition test {W} (f : W → W * bool) : T W bool := λ w,
  let '(w', b) := f w in (w', [], inr b).

Definition load {W} (H : Host W) (path : string) : T W load_result := λ w,
  let '(w', r) := load_json H path w in (w', [Load path], inr r).

(** The body of [for paper in papers] over the fetched results. *)
Fixpoint collect {W} (g : fetched W) (papers_info : pyval) (paper_ids : list string)
    : W * (exn + (pyval * list string)) :=
  match g with
  | Stop w => (w, inr (papers_info, paper_ids))
  | Fail w e => (w, inl e)
  | Yield w p rest =>
      match store papers_info (short_id p) (paper_info p) with
      | inl e => (w, inl e)
      | inr papers_info' => collect rest papers_info' (paper_ids ++ [short_id p])
      end
  end.

Section WithHost.
Context {W : Type} (H : Host W).

Definition search_papers (topic : string) (max_results : Z) : T W (list string) :=
  let path := path_join PAPER_DIR (replace_spaces (PyStr.lower topic)) in
  ask (Makedirs path) (makedirs H path);;
  let file_path := path_join path "papers_info.json" in
  loaded ← load H file_path;
  papers_info ← match loaded with
                 | Loaded v => mret v
                 | NotFound _ | Malformed _ => mret (VDict [])
                 | LoadError e => fail e
                 end;
  collected ← ask (Search topic max_results)
                (λ w, collect (results H topic max_results w) papers_info []);
  ask (Dump file_path (json_dumps collected.1))
    (dump_json H file_path (json_dumps collected.1));;
  say ("Results are saved in: " +:+ file_path);;
  mret collected.2.

(** The body of [for item in os.listdir(PAPER_DIR)]. *)
Fixpoint scan (paper_id : string) (items : list string) : T W string :=
  match items with
  | [] => mret (not_found_message paper_id)
  | item :: rest =>
      let item_path := path_join PAPER_DIR item in
      is_dir ← test (isdir H item_path);
      if (is_dir : bool) then
        let file_path := path_join item_path "papers_info.json" in
        is_file ← test (isfile H file_path);
        if (is_file : bool) then
          loaded ← load H file_path;
          match loaded with
          | Loaded papers_info =>
              match lookup_info papers_info paper_id with
              | inl e => fail e
              | inr (Some info) => mret (json_dumps info)
              | inr None => scan paper_id rest
              end
          | NotFound msg | Malformed msg =>
              say ("Error reading " +:+ file_path +:+ ": " +:+ msg);;
              scan paper_id rest
          | LoadError e => fail e
          end
        else scan paper_id rest
      else scan paper_id rest
  end.

Definition extract_info (paper_id : string) : T W string :=
  items ← ask (Listdir PAPER_DIR) (listdir H PAPER_DIR);
  scan paper_id items.

End WithHost.

(** the lines a run printed *)
Fixpoint said (ops : list op) : list string :=
  match ops with
  | [] => []
  | Say text :: rest => text :: said rest
  | _ :: rest => said rest
  end.

(** A tool run inside the program: of its operations the trace keeps what
    it printed. *)
Definition lift {W A} (t : T W A) : M W A := λ s,
  match t (world s) with
  | (w, ops, inl e) => (State w (stdin s), List.map Print (said ops), Raise e)
  | (w, ops, inr a) => (State w (stdin s), List.map Print (said ops), Ret a)
  end.

(** A tool run seen from the loop that calls it: the lines it printed and
    its result as a value. *)
Definition as_tool {W A} (value : A → pyval) (t : T W A)
    : W → W * list string * (exn + pyval) := λ w,
  match t w with
  | (w', ops, inl e) => (w', said ops, inl e)
  | (w', ops, inr a) => (w', said ops, inr (value a))
  end.

(** a list of strings as a value *)
Definition str_list (l : list string) : pyval := VList (List.map VStr l).

(** [main] of chatbot.py *)
Definition main {W} (H : Host W) (E : Env W) (fuel : nat) : M W unit :=
  lift (search_papers H "computers" 5);;
  lift (extract_info H "1310.7911v2");;
  Chatbot.chat_loop E fuel.

End Papers.

(** ** Concrete services for the examples *)

Module Fixture.

Definition ok {A} (a : A) : unit → unit * (exn + A) := λ w, (w, inr a).
Definition fails {A} (e : exn) : unit → unit * (exn + A) := λ w, (w, inl e).

(** a tool function, or a handler, that prints nothing and returns [a] *)
Definition returns {A} (a : A)
    : pydict pyval → unit → unit * list string * (exn + A) := λ _ w, (w, [], inr a).
(** a tool function, or a handler, that raises [e] *)
Definition raises {A} (e : exn)
    : pydict pyval → unit → unit * list string * (exn + A) := λ _ w, (w, [], inl e).

Definition topic_x : pydict pyval := [("topic", VStr "x")].

(** The model answers every query with [answer]; [search_papers] behaves
    as [search]; the tool-host lists [tools], and answers a call with the
    content parts [parts]. *)
Definition env (answer : response) (search : tool_function unit)
    (handshake : unit → unit * (exn + unit))
    (tools : list remote_tool) (parts : list string) : Env unit := {|
  generate_content := λ _ _, ok answer;
  validate := λ _, None;
  search_papers := search;
  extract_info := returns (VStr "There's no saved information related to paper x.");
  stdio_client := ok tt;
  ClientSession := ok tt;
  initialize := handshake;
  list_tools := ok tools;
  call_tool := λ _ _, ok (CallToolResult parts)
|}.

Definition start (lines : list string) : state unit := State tt lines.

Definition ids : pyval := VList [VStr "id1"; VStr "id2"].

Definition unreachable : exn := Exn OtherException "arXiv is unreachable".


(** the model asks for [search_papers], which fails *)
Definition failing : Env unit :=
  env (FunctionCall "search_papers" topic_x) (raises unreachable) (ok tt) [] [].

(** the model asks for a tool that is not there *)
Definition confused : Env unit :=
  env (FunctionCall "echoCount" topic_x) (returns ids) (ok tt) [] [].

(** the model answers in plain text, the tool-host lists no tool *)
Definition greeter : Env unit :=
  env (PlainText (VStr "Hello!")) (returns VNone) (ok tt) [] [].






End Fixture.

(** ** A concrete papers directory and arXiv for the examples *)

Module Shelf.

Definition manifolds : Papers.paper := {|
  Papers.short_id := "1310.7911v2";
  Papers.title := "Compact manifolds";
  Papers.authors := ["A. Author"; "B. Author"];
  Papers.summary := "A survey.";
  Papers.pdf_url := VStr "http://arxiv.org/pdf/1310.7911v2";
  Papers.published := "2013-10-29"
|}.

Definition machines : Papers.paper := {|
  Papers.short_id := "2401.00001v1";
  Papers.title := "Machines";
  Papers.authors := ["C. Author"];
  Papers.summary := "On computers.";
  Papers.pdf_url := VNone;
  Papers.published := "2024-01-01"
|}.

(** an older entry of the first paper *)
Definition stale : pyval := VDict [("title", VStr "Draft")].

(** Every directory operation succeeds, every load gives [loaded], the
    listing is [names], and arXiv answers every search with [g]. *)
Definition host (loaded : Papers.load_result) (g : Papers.fetched unit)
    (names : list string) : Papers.Host unit := {|
  Papers.makedirs := λ _ w, (w, inr tt);
  Papers.load_json := λ _ w, (w, loaded);
  Papers.dump_json := λ _ _ w, (w, inr tt);
  Papers.listdir := λ _ w, (w, inr names);
  Papers.isdir := λ _ w, (w, true);
  Papers.isfile := λ _ w, (w, true);
  Papers.results := λ _ _ _, g
|}.

Definition two_papers : Papers.fetched unit :=
  Papers.Yield tt manifolds (Papers.Yield tt machines (Papers.Stop tt)).

Definition old_shelf : Papers.load_result :=
  Papers.Loaded (VDict [("0001.0001v1", stale); ("1310.7911v2", stale)]).

(** the dict on the shelf after the two papers went in *)
Definition new_shelf : pydict pyval :=
  [("0001.0001v1", stale);
   ("1310.7911v2", Papers.paper_info manifolds);
   ("2401.00001v1", Papers.paper_info machines)].

(** arXiv fails after the first result *)
Definition broken : Papers.fetched unit :=
  Papers.Yield tt manifolds (Papers.Fail tt Fixture.unreachable).

(** The services of the loop with the two tools run on [H]: the model
    answers every query with [answer], [search_papers] is called for [topic]
    and [extract_info] for [paper_id]. *)
Definition env (H : Papers.Host unit) (answer : response) (topic paper_id : string)
    : Env unit := {|
  generate_content := λ _ _, Fixture.ok answer;
  validate := λ _, None;
  search_papers := λ _, Papers.as_tool Papers.str_list (Papers.search_papers H topic 5);
  extract_info := λ _, Papers.as_tool VStr (Papers.extract_info H paper_id);
  stdio_client := Fixture.ok tt;
  ClientSession := Fixture.ok tt;
  initialize := Fixture.ok tt;
  list_tools := Fixture.ok [];
  call_tool := λ _ _, Fixture.ok (CallToolResult [])
|}.

End Shelf.

(** ** Predicates of the statements *)

Definition is_str (v : pyval) : bool :=
  match v with VStr _ => true | _ => false end.


(** the text that announces a quit *)
Definition is_quit (line : string) : bool :=
  String.eqb (PyStr.lower (PyStr.strip line)) "quit".

Definition is_scope_event (ev : event) : bool :=
  match ev with Enter _ | Exit _ => true | _ => false end.

(** the events of a run *)
Definition trace_of {W A} (run : state W * list event * outcome A) : list event :=
  snd (fst run).

Definition outcome_of {W A} (run : state W * list event * outcome A) : outcome A :=
  snd run.

(** [stdin] holds a quit line after [n] lines that are not *)
Fixpoint quit_after (n : nat) (lines : list string) : bool :=
  match lines with
  | [] => false
  | line :: rest =>
      match n with
      | O => is_quit line
      | S m => negb (is_quit line) && quit_after m rest
      end
  end.

Definition quiet (ev : event) : bool := negb (is_scope_event ev).

(** A computation is tame when it reads no line, returns or raises within
    any fuel, and neither enters nor leaves a channel. *)
Definition tame {W A} (c : M W A) : Prop :=
  ∀ s, stdin (c s).1.1 = stdin s
       ∧ (c s).2 ≠ Hang
       ∧ forallb quiet (c s).1.2 = true.

(** how often a trace leaves the channel [r] *)
Definition closes (r : resource) (t : list event) : nat :=
  length (List.filter (λ ev, match ev, r with
                             | Exit StdioChannel, StdioChannel => true
                             | Exit Session, Session => true
                             | _, _ => false
                             end) t).

(** what the local loop prints for the result of a query *)
Definition shown (result : pyval) : list event :=
  if truthy result then [Print "Result:"; Print (py_str result)] else [].

Definition query_prompt : event := Prompt (String PyStr.LF "Query: ").

(** the line the local loop prints for a caught exception *)
Definition chatbot_error (e : exn) : event :=
  Print (String PyStr.LF (" Error: " +:+ exn_text e)).

(** the line the remote loop prints for a caught exception *)
Definition client_error (e : exn) : event :=
  Print (String PyStr.LF ("Error: " +:+ exn_text e)).

Definition end_of_input : exn := Exn EOFError "EOF when reading a line".

(** the run [run] after the events [t] *)
Definition after {W A} (t : list event) (run : state W * list event * outcome A)
    : state W * list event * outcome A :=
  (run.1.1, t ++ run.1.2, run.2).

(** the two lines both variants print for a function call *)
Definition call_banner (name : string) (args : pydict pyval) : list event :=
  [Print ("Function to call: " +:+ name);
   Print ("Arguments: " +:+ py_str (VDict args))].

(** a local tool function's outcome as the outcome of the query *)
Definition of_sum {A} (r : exn + A) : outcome A :=
  match r with inl e => Raise e | inr a => Ret a end.

(** the line the remote variant prints after the listing *)
Definition connected (tools : list remote_tool) : event :=
  Print (String PyStr.LF "Connected to server with tools: "
         +:+ py_str (VList (List.map (λ t, VStr (name t)) tools))).

(** the block inside the two [async with] of [connect_to_server_and_run],
    for the lemmas on the session *)
Definition session_block {W} (E : Env W) (fuel : nat) : M W unit :=
  ext (initialize E);;
  tools ← ext (list_tools E);
  emit (connected tools);;
  available_tools ← settle (Client.new_tools E tools);
  Client.chat_loop E available_tools fuel.

(** the library accepts the declaration of the listed tool [t] *)
Definition accepted {W} (E : Env W) (t : remote_tool) : Prop :=
  validate E [Client.declaration_of t] = None.


(** what the remote variant prints between the handshake and the first
    prompt *)
Definition greeting (tools : list remote_tool) : list event :=
  [Print (String PyStr.LF "Connected to server with tools: "
          +:+ py_str (VList (List.map (λ t, VStr (name t)) tools)));
   Print (String PyStr.LF "MCP Chatbot Started!");
   Print "Type your queries or 'quit' to exit."].

(** *** For the statements on the tools *)

(** the papers an iteration yields, and how it ends *)
Fixpoint yielded {W} (g : Papers.fetched W) : list Papers.paper :=
  match g with
  | Papers.Stop _ | Papers.Fail _ _ => []
  | Papers.Yield _ p rest => p :: yielded rest
  end.

Fixpoint ending {W} (g : Papers.fetched W) : W * option exn :=
  match g with
  | Papers.Stop w => (w, None)
  | Papers.Fail w e => (w, Some e)
  | Papers.Yield _ _ rest => ending rest
  end.

(** the dict [d] after the entries of the papers [ps], in their order *)
Definition stored (d : pydict pyval) (ps : list Papers.paper) : pydict pyval :=
  fold_left (λ acc p, Papers.dict_set (Papers.short_id p) (Papers.paper_info p) acc) ps d.

(** the last paper of [ps] with the identifier [k] *)
Definition latest (k : string) (ps : list Papers.paper) : option Papers.paper :=
  List.find (λ p, String.eqb k (Papers.short_id p)) (rev ps).

(** the dict [search_papers] starts from after the load *)
Definition start_dict (r : Papers.load_result) : option (pydict pyval) :=
  match r with
  | Papers.Loaded (VDict d) => Some d
  | Papers.NotFound _ | Papers.Malformed _ => Some []
  | _ => None
  end.

(** the file of a listed item *)
Definition item_file (item : string) : string :=
  Papers.path_join (Papers.path_join Papers.PAPER_DIR item) "papers_info.json".

(** a load that gives [extract_info] nothing for [paper_id], and lets it go
    on *)
Definition no_entry (paper_id : string) (r : Papers.load_result) : Prop :=
  match r with
  | Papers.Loaded v => Papers.lookup_info v paper_id = inr None
  | Papers.NotFound _ | Papers.Malformed _ => True
  | Papers.LoadError _ => False
  end.

(** An item [extract_info] passes over: no directory, or without the file,
    or with a file that has no entry for [paper_id]. *)
Definition item_skipped {W} (H : Papers.Host W) (paper_id item : string) : Prop :=
  (∀ w, (Papers.isdir H (Papers.path_join Papers.PAPER_DIR item) w).2 = false)
  ∨ (∀ w, (Papers.isfile H (item_file item) w).2 = false)
  ∨ (∀ w, no_entry paper_id (Papers.load_json H (item_file item) w).2).

(** An item whose file holds [info] under [paper_id]. *)
Definition item_holds {W} (H : Papers.Host W) (paper_id item : string) (info : pyval)
    : Prop :=
  (∀ w, (Papers.isdir H (Papers.path_join Papers.PAPER_DIR item) w).2 = true)
  ∧ (∀ w, (Papers.isfile H (item_file item) w).2 = true)
  ∧ (∀ w, ∃ v, (Papers.load_json H (item_file item) w).2 = Papers.Loaded v
               ∧ Papers.lookup_info v paper_id = inr (Some info)).

(** An operation of [extract_info] on one of the items [items]: the load
    of its file, or the line printed when the file cannot be read. *)
Definition reads_one_of (items : list string) (o : Papers.op) : Prop :=
  ∃ x, In x items
       ∧ (o = Papers.Load (item_file x)
          ∨ ∃ msg, o = Papers.Say ("Error reading " +:+ item_file x +:+ ": " +:+ msg)).

(** an operation that changes nothing on the disk and asks nothing of arXiv *)
Definition read_only (o : Papers.op) : bool :=
  match o with
  | Papers.Load _ | Papers.Listdir _ | Papers.Say _ => true
  | _ => false
  end.

Definition is_dump (o : Papers.op) : bool :=
  match o with Papers.Dump _ _ => true | _ => false end.

(** The queries handed to the model gateway in a trace: [Generate] marks
    the call of [process_query], which asks the model service once, unless
    it fails before the request is sent. *)
Definition requests (t : list event) : nat :=
  length (List.filter (λ ev, match ev with Generate _ => true | _ => false end) t).

(** the run [run] of a tool after the operations [ops] *)
Definition after_ops {W A} (ops : list Papers.op) (run : W * list Papers.op * (exn + A))
    : W * list Papers.op * (exn + A) :=
  (run.1.1, ops ++ run.1.2, run.2).

(** the value [search_papers] goes on with after the load *)
Definition loaded_value (r : Papers.load_result) : pyval :=
  match r with
  | Papers.Loaded v => v
  | _ => VDict []
  end.

(** a computation that asks the model service nothing *)
Definition calm {W A} (c : M W A) : Prop :=
  ∀ s, requests (c s).1.2 = 0.

(** a string of whitespace only *)
Fixpoint blank (s : string) : bool :=
  match s with
  | EmptyString => true
  | String c r => PyStr.isspace c && blank r
  end.

(** the names of the function declarations of a tool list *)
Fixpoint declared_names (declarations : list pyval) : list string :=
  match declarations with
  | [] => []
  | VDict d :: rest =>
      match dict_get "name" d with
      | Some (VStr n) => n :: declared_names rest
      | _ => declared_names rest
      end
  | _ :: rest => declared_names rest
  end.

(** What a pass of either loop is on a line of input: it reads that
    line; on a quit it breaks without a request to the model service, and
    otherwise it sends one and continues or raises. *)
Definition pass_on_line {W} (turn : M W flow) : Prop :=
  ∀ w line rest,
    ∃ s1 t1 r,
      turn (State w (line :: rest)) = (s1, t1, r)
      ∧ stdin s1 = rest
      ∧ if is_quit line then r = Ret Break ∧ requests t1 = 0
        else requests t1 = 1 ∧ (r = Ret Continue ∨ ∃ e, r = Raise e).

(** * Theorems *)

(** ** Strings *)

Lemma append_cons (x : ascii) (a b : string) :
  String x a +:+ b = String x (a +:+ b).
Proof. reflexivity. Qed.

Lemma append_nil_l (a : string) : "" +:+ a = a.
Proof. reflexivity. Qed.










(** ** The library functions on literal inputs *)

Example strip_lower_example :
  PyStr.lower (PyStr.strip "  Quit Me ") = "quit me".
Proof. reflexivity. Qed.

Example isspace_example :
  PyStr.strip (String PyStr.TAB (" a b " +:+ PyStr.chr PyStr.LF)) = "a b".
Proof. reflexivity. Qed.

Example repr_example :
  py_repr (VList [VStr "id1"; VInt (-5); VBool true; VDict [("a", VNone)]])
  = "['id1', -5, True, {'a': None}]".
Proof. vm_compute. reflexivity. Qed.

Example repr_quotes_example :
  PyStr.repr "it's" = String PyStr.dquote ("it's" +:+ PyStr.chr PyStr.dquote).
Proof. vm_compute. reflexivity. Qed.

Example json_list_example :
  json_dumps (VList [VInt 1; VBool false; VNone; VList []])
  = "[
  1,
  false,
  null,
  []
]".
Proof. vm_compute. reflexivity. Qed.

Example json_dict_example :
  json_dumps (VDict [("a", VInt 1)])
  = "{" +:+ String PyStr.LF
        ("  " +:+ String PyStr.dquote
           ("a" +:+ String PyStr.dquote (": 1" +:+ String PyStr.LF "}"))).
Proof. vm_compute. reflexivity. Qed.

(** A handshake that fails: the session ends with its exception, and both
    channels are left. *)
Example handshake_failure_example :
  Client.connect_to_server_and_run
    (Fixture.env (PlainText VNone) (Fixture.returns VNone)
       (Fixture.fails Fixture.unreachable) [] [])
    1 (Fixture.start ["hello"])
  = (Fixture.start ["hello"],
     [Enter StdioChannel; Enter Session; Exit Session; Exit StdioChannel],
     Raise Fixture.unreachable).
Proof. vm_compute. reflexivity. Qed.

(** ** [str.join] on the items of a list *)

Lemma str_items_strings (l : list string) (i : nat) :
  Chatbot.str_items i (List.map VStr l) = inr l.
Proof.
  revert i. induction l as [|x l IH]; intros i; simpl; [reflexivity|].
  now rewrite IH.
Qed.

Lemma str_items_accepts (items : list pyval) (i : nat) :
  forallb is_str items = true →
  ∃ l, Chatbot.str_items i items = inr l ∧ items = List.map VStr l.
Proof.
  revert i. induction items as [|v items IH]; intros i Hall.
  - exists []. split; reflexivity.
  - simpl in Hall. apply andb_prop in Hall as [Hv Hrest].
    destruct v; try discriminate Hv.
    destruct (IH (S i) Hrest) as (l & Hl & ->).
    exists (s :: l). simpl. rewrite str_items_strings. split; reflexivity.
Qed.


(** ** The Tool Invoker: [execute_tool] *)

Section ToolInvoker.
Context {W : Type}.
Implicit Types (s : state W) (f : handler W)
  (m : gmap string (handler W)) (v : pyval) (r : raw).

Lemma call_returns (g : tool_function W) kwargs s w lines v :
  g kwargs (world s) = (w, lines, inr v) →
  call g kwargs s = (State w (stdin s), List.map Print lines, Ret v).
Proof. intros Hf. unfold call. now rewrite Hf. Qed.

Lemma call_raises (g : tool_function W) kwargs s w lines e :
  g kwargs (world s) = (w, lines, inl e) →
  call g kwargs s = (State w (stdin s), List.map Print lines, Raise e).
Proof. intros Hf. unfold call. now rewrite Hf. Qed.

Lemma call_handler_returns f kwargs s w lines r :
  f kwargs (world s) = (w, lines, inr r) →
  call_handler f kwargs s = (State w (stdin s), List.map Print lines, Ret r).
Proof. intros Hf. unfold call_handler. now rewrite Hf. Qed.

Lemma call_handler_raises f kwargs s w lines e :
  f kwargs (world s) = (w, lines, inl e) →
  call_handler f kwargs s = (State w (stdin s), List.map Print lines, Raise e).
Proof. intros Hf. unfold call_handler. now rewrite Hf. Qed.



Lemma execute_tool_bound tool_name tool_args m f s w lines r out :
  m !! tool_name = Some f →
  f tool_args (world s) = (w, lines, inr r) →
  Chatbot.normalize r (State w (stdin s)) = (State w (stdin s), [], out) →
  Chatbot.execute_tool tool_name tool_args m s
  = (State w (stdin s), List.map Print lines, out).
Proof.
  intros Hm Hf Hn. unfold Chatbot.execute_tool. rewrite Hm.
  unfold mbind, M_bind. rewrite (call_handler_returns _ _ _ _ _ _ Hf), Hn.
  now rewrite app_nil_r.
Qed.


Lemma execute_tool_handler_raises tool_name tool_args m f s w lines e :
  m !! tool_name = Some f →
  f tool_args (world s) = (w, lines, inl e) →
  Chatbot.execute_tool tool_name tool_args m s
  = (State w (stdin s), List.map Print lines, Raise e).
Proof.
  intros Hm Hf. unfold Chatbot.execute_tool. rewrite Hm.
  unfold mbind, M_bind. now rewrite (call_handler_raises _ _ _ _ _ _ Hf).
Qed.

Lemma map_VStr_inj (a b : list string) :
  List.map VStr a = List.map VStr b → a = b.
Proof.
  revert b. induction a as [|x a IH]; intros [|y b] Hab;
    try discriminate; [reflexivity|].
  injection Hab as -> Hab. f_equal. now apply IH.
Qed.


End ToolInvoker.



(** Other results without a text: an integer of 4301 digits, alone or in a
    dict, and a dict that holds a value [json.dumps] cannot serialise. *)
Example execute_tool_unprintable_results :
  outcome_of
    (Chatbot.execute_tool "count" []
       (<["count" := Fixture.returns (Value (VInt (10 ^ 4300)))]> ∅)
       (Fixture.start []))
  = Raise int_too_long
  ∧ outcome_of
      (Chatbot.execute_tool "count" []
         (<["count" := Fixture.returns (Value (VDict [("n", VInt (10 ^ 4300))]))]> ∅)
         (Fixture.start []))
    = Raise int_too_long
  ∧ outcome_of
      (Chatbot.execute_tool "dates" []
         (<["dates" := Fixture.returns
                         (Foreign (ForeignDict
                            (inl (Exn TypeError
                                    "Object of type date is not JSON serializable"))))]> ∅)
         (Fixture.start []))
    = Raise (Exn TypeError "Object of type date is not JSON serializable")
  ∧ outcome_of
      (Chatbot.execute_tool "ratio" []
         (<["ratio" := Fixture.returns (Foreign (ForeignValue (inr "0.5")))]> ∅)
         (Fixture.start []))
    = Ret "0.5".
Proof. repeat split; vm_compute; reflexivity. Qed.

Section EmptyResults.
Context {W : Type}.
Implicit Types (s : state W) (f : handler W)
  (m : gmap string (handler W)) (v : pyval).

(** C9: among the empty results of a handler, only [None] is given the
    sentinel: the empty list is joined to the empty string, which is not the
    sentinel and is also what the empty string gives, so the two cannot be
    told apart afterwards. *)
Theorem execute_tool_empty_results tool_name tool_args m f s w lines v :
  m !! tool_name = Some f →
  f tool_args (world s) = (w, lines, inr (Value v)) →
  truthy v = false →
  (v = VList [] →
     Chatbot.execute_tool tool_name tool_args m s
     = (State w (stdin s), List.map Print lines, Ret ""))
  ∧ (v = VStr "" →
     Chatbot.execute_tool tool_name tool_args m s
     = (State w (stdin s), List.map Print lines, Ret ""))
  ∧ (outcome_of (Chatbot.execute_tool tool_name tool_args m s)
     = Ret Chatbot.sentinel ↔ v = VNone)
  ∧ Chatbot.sentinel ≠ "".
Proof.
  intros Hm Hf Hfalsy.
  assert (Hrun : ∀ out,
             Chatbot.normalize v (State w (stdin s)) = (State w (stdin s), [], out) →
             Chatbot.execute_tool tool_name tool_args m s
             = (State w (stdin s), List.map Print lines, out))
    by (intros out Hn; exact (execute_tool_bound _ _ _ _ _ _ _ _ _ Hm Hf Hn)).
  split; [intros ->; now apply Hrun|].
  split; [intros ->; now apply Hrun|].
  split; [|discriminate].
  destruct v as [|b|n|t|items|entries]; simpl in Hfalsy.
  - rewrite (Hrun (Ret Chatbot.sentinel) eq_refl). now split.
  - subst b. rewrite (Hrun (Ret "False") eq_refl). split; discriminate.
  - apply negb_false_iff, Z.eqb_eq in Hfalsy. subst n.
    rewrite (Hrun (Ret "0") eq_refl). split; discriminate.
  - apply negb_false_iff, String.eqb_eq in Hfalsy. subst t.
    rewrite (Hrun (Ret "") eq_refl). split; discriminate.
  - destruct items; [|discriminate Hfalsy].
    rewrite (Hrun (Ret "") eq_refl). split; discriminate.
  - destruct entries; [|discriminate Hfalsy].
    rewrite (Hrun (Ret "{}") eq_refl). split; discriminate.
Qed.

End EmptyResults.

(** The empty list of a handler comes out as the empty string. *)
Lemma execute_tool_empty_results_witness :
  truthy (VList []) = false
  ∧ Chatbot.execute_tool "search" [] (<["search" := Fixture.returns (Value (VList []))]> ∅)
      (Fixture.start [])
    = (Fixture.start [], [], Ret "").
Proof.
  split; [reflexivity|].
  exact (proj1 (execute_tool_empty_results "search" []
                  (<["search" := Fixture.returns (Value (VList []))]> ∅)
                  (Fixture.returns (Value (VList []))) (Fixture.start []) tt []
                  (VList []) (lookup_insert_eq _ _ _) eq_refl eq_refl) eq_refl).
Defined.

(** ** Computations that stay inside a turn *)

Section Tame.
Context {W : Type}.

Lemma tame_ret {A} (a : A) : tame (W:=W) (mret a).
Proof. intros s. repeat split. discriminate. Qed.

Lemma tame_raise {A} (e : exn) : tame (W:=W) (A:=A) (raise e).
Proof. intros s. repeat split. discriminate. Qed.

Lemma tame_emit (ev : event) : quiet ev = true → tame (W:=W) (emit ev).
Proof.
  intros Hq s. repeat split; [discriminate|]. simpl. now rewrite Hq.
Qed.

Lemma tame_print (text : string) : tame (W:=W) (print text).
Proof. now apply tame_emit. Qed.

Lemma tame_ext {A} (f : W → W * (exn + A)) : tame (ext f).
Proof.
  intros s. unfold ext. destruct (f (world s)) as [w [e|a]];
    repeat split; discriminate.
Qed.

Lemma prints_quiet (lines : list string) :
  forallb quiet (List.map Print lines) = true.
Proof. induction lines as [|l lines IH]; [reflexivity | exact IH]. Qed.

Lemma tame_call (f : tool_function W) (kwargs : pydict pyval) : tame (call f kwargs).
Proof.
  intros s. unfold call. destruct (f kwargs (world s)) as [[w lines] [e|v]];
    (repeat split; [discriminate | apply prints_quiet]).
Qed.

Lemma tame_bind {A B} (c : M W A) (k : A → M W B) :
  tame c → (∀ a, tame (k a)) → tame (c ≫= k).
Proof.
  intros Hc Hk s. unfold mbind, M_bind.
  destruct (Hc s) as (Hin & Hout & Hq).
  destruct (c s) as [[s1 t1] [a|e|]]; simpl in *; try easy.
  destruct (Hk a s1) as (Hin' & Hout' & Hq').
  destruct (k a s1) as [[s2 t2] r]; simpl in *.
  repeat split; [congruence | exact Hout' |].
  rewrite forallb_app, Hq, Hq'. reflexivity.
Qed.

Lemma tame_generate (E : Env W) tools query : tame (generate E tools query).
Proof.
  apply tame_bind; [now apply tame_emit | intros _; apply tame_ext].
Qed.

End Tame.

Ltac tame_step :=
  first [ apply tame_ret | apply tame_raise | apply tame_print
        | apply tame_generate | apply tame_ext | apply tame_call
        | apply tame_emit; reflexivity
        | apply tame_bind; [|intros ?] ].

Section TameQueries.
Context {W : Type} (E : Env W).

Lemma chatbot_process_query_tame query : tame (Chatbot.process_query E query).
Proof.
  unfold Chatbot.process_query.
  apply tame_bind; [apply tame_generate|]. intros [fname args|text].
  - repeat (apply tame_bind; [apply tame_print | intros _]).
    destruct (String.eqb fname "search_papers"); [apply tame_call|].
    destruct (String.eqb fname "extract_info"); [apply tame_call|].
    apply tame_raise.
  - repeat tame_step.
Qed.

Lemma first_text_tame result : tame (W:=W) (Client.first_text result).
Proof. unfold Client.first_text. destruct (content result); tame_step. Qed.

Lemma client_process_query_tame tools query :
  tame (Client.process_query E tools query).
Proof.
  unfold Client.process_query.
  apply tame_bind; [apply tame_generate|]. intros [fname args|text].
  - repeat (apply tame_bind; [apply tame_print | intros _]).
    apply tame_bind; [repeat tame_step|]. intros result.
    apply tame_bind; [apply tame_print | intros _].
    apply tame_bind; [apply first_text_tame | intros t].
    repeat tame_step.
  - repeat tame_step.
Qed.

(** A query starts with the request to the model service. *)
Lemma chatbot_process_query_generates query s :
  ∃ t, trace_of (Chatbot.process_query E query s) = Generate query :: t.
Proof.
  unfold Chatbot.process_query, generate, trace_of, mbind, M_bind, emit, ext.
  simpl. destruct (generate_content E _ query (world s)) as [w [e|r]]; simpl;
    [eexists; reflexivity|].
  match goal with |- context [match ?k ?st with _ => _ end] =>
    destruct (k st) as [[s2 t2] r2] end.
  eexists; reflexivity.
Qed.

Lemma client_process_query_generates tools query s :
  ∃ t, trace_of (Client.process_query E tools query s) = Generate query :: t.
Proof.
  unfold Client.process_query, generate, trace_of, mbind, M_bind, emit, ext.
  simpl. destruct (generate_content E tools query (world s)) as [w [e|r]]; simpl;
    [eexists; reflexivity|].
  match goal with |- context [match ?k ?st with _ => _ end] =>
    destruct (k st) as [[s2 t2] r2] end.
  eexists; reflexivity.
Qed.

End TameQueries.

(** ** One pass through the loop of [chatbot.py] *)

Section ChatbotTurn.
Context {W : Type} (E : Env W).

Lemma chatbot_turn_quit (w : W) (line : string) (rest : list string) :
  is_quit line = true →
  Chatbot.chat_turn E (State w (line :: rest))
  = (State w rest, [query_prompt], Ret Break).
Proof.
  intros Hq. unfold is_quit in Hq.
  unfold Chatbot.chat_turn, try_except, mbind, M_bind, input.
  cbn [stdin world]. rewrite Hq. reflexivity.
Qed.

Lemma chatbot_turn_query (w : W) (line : string) (rest : list string) s1 t1 r :
  is_quit line = false →
  Chatbot.process_query E (PyStr.strip line) (State w rest) = (s1, t1, r) →
  Chatbot.chat_turn E (State w (line :: rest))
  = match r with
    | Ret v => (s1, query_prompt :: t1 ++ shown v, Ret Continue)
    | Raise e =>
        if is_Exception e
        then (s1, query_prompt :: t1 ++ [chatbot_error e], Ret Continue)
        else (s1, query_prompt :: t1, Raise e)
    | Hang => (s1, query_prompt :: t1, Hang)
    end.
Proof.
  intros Hq Hpq. unfold is_quit in Hq.
  unfold Chatbot.chat_turn, try_except, mbind, M_bind, input.
  cbn [stdin world]. rewrite Hq, Hpq.
  destruct r as [v|e|].
  - unfold shown. destruct (truthy v); cbn; rewrite ?app_nil_r; reflexivity.
  - destruct (is_Exception e); reflexivity.
  - reflexivity.
Qed.

Lemma chatbot_turn_eof (w : W) :
  Chatbot.chat_turn E (State w [])
  = (State w [], [query_prompt; chatbot_error end_of_input], Ret Continue).
Proof. reflexivity. Qed.

End ChatbotTurn.

(** ** What a query of [chatbot.py] does *)

Section ChatbotQuery.
Context {W : Type} (E : Env W).
Implicit Types (s : state W) (w : W).

Lemma chatbot_query_gateway_fails query s w e :
  generate_content E [Tool Chatbot.TOOLS] query (world s) = (w, inl e) →
  Chatbot.process_query E query s
  = (State w (stdin s), [Generate query], Raise e).
Proof.
  intros Hg. unfold Chatbot.process_query, generate, mbind, M_bind, emit, ext.
  now rewrite Hg.
Qed.

Lemma chatbot_query_plain_text query s w text :
  generate_content E [Tool Chatbot.TOOLS] query (world s) = (w, inr (PlainText text)) →
  Chatbot.process_query E query s
  = (State w (stdin s),
     [Generate query; Print "No function call found in the response.";
      Print (py_str text)],
     Ret VNone).
Proof.
  intros Hg. unfold Chatbot.process_query, generate, mbind, M_bind, emit, ext.
  now rewrite Hg.
Qed.

Lemma chatbot_query_search_papers query s w args w' lines res :
  generate_content E [Tool Chatbot.TOOLS] query (world s)
  = (w, inr (FunctionCall "search_papers" args)) →
  search_papers E args w = (w', lines, res) →
  Chatbot.process_query E query s
  = (State w' (stdin s),
     Generate query :: call_banner "search_papers" args ++ List.map Print lines,
     of_sum res).
Proof.
  intros Hg Hf. unfold Chatbot.process_query, generate, mbind, M_bind, emit, ext.
  rewrite Hg. cbn [print emit app String.eqb Ascii.eqb Bool.eqb]. unfold call.
  cbn [world stdin]. rewrite Hf. destruct res; reflexivity.
Qed.

Lemma chatbot_query_extract_info query s w args w' lines res :
  generate_content E [Tool Chatbot.TOOLS] query (world s)
  = (w, inr (FunctionCall "extract_info" args)) →
  extract_info E args w = (w', lines, res) →
  Chatbot.process_query E query s
  = (State w' (stdin s),
     Generate query :: call_banner "extract_info" args ++ List.map Print lines,
     of_sum res).
Proof.
  intros Hg Hf. unfold Chatbot.process_query, generate, mbind, M_bind, emit, ext.
  rewrite Hg. cbn [print emit app String.eqb Ascii.eqb Bool.eqb]. unfold call.
  cbn [world stdin]. rewrite Hf. destruct res; reflexivity.
Qed.


End ChatbotQuery.

(** ** What a query and a pass of [client.py] do *)

Section ClientQuery.
Context {W : Type} (E : Env W).
Implicit Types (s : state W) (w : W) (tools : list tool).

Lemma client_query_gateway_fails tools query s w e :
  generate_content E tools query (world s) = (w, inl e) →
  Client.process_query E tools query s
  = (State w (stdin s), [Generate query], Raise e).
Proof.
  intros Hg. unfold Client.process_query, generate, mbind, M_bind, emit, ext.
  now rewrite Hg.
Qed.

Lemma client_query_plain_text tools query s w text :
  generate_content E tools query (world s) = (w, inr (PlainText text)) →
  Client.process_query E tools query s
  = (State w (stdin s),
     [Generate query; Print "No Function called"; Print (py_str text)],
     Ret None).
Proof.
  intros Hg. unfold Client.process_query, generate, mbind, M_bind, emit, ext.
  now rewrite Hg.
Qed.

Lemma client_query_call_fails tools query s w fname args w' e :
  generate_content E tools query (world s) = (w, inr (FunctionCall fname args)) →
  call_tool E fname args w = (w', inl e) →
  Client.process_query E tools query s
  = (State w' (stdin s),
     Generate query :: call_banner fname args ++ [CallTool fname args],
     Raise e).
Proof.
  intros Hg Hc. unfold Client.process_query, generate, mbind, M_bind, emit, ext.
  rewrite Hg. cbn [print emit app world stdin]. now rewrite Hc.
Qed.


Lemma client_turn_quit tools w (line : string) (rest : list string) :
  is_quit line = true →
  Client.chat_turn E tools (State w (line :: rest))
  = (State w rest, [query_prompt], Ret Break).
Proof.
  intros Hq. unfold is_quit in Hq.
  unfold Client.chat_turn, try_except, mbind, M_bind, input.
  cbn [stdin world]. rewrite Hq. reflexivity.
Qed.

Lemma client_turn_query tools w (line : string) (rest : list string) s1 t1 r :
  is_quit line = false →
  Client.process_query E tools (PyStr.strip line) (State w rest) = (s1, t1, r) →
  Client.chat_turn E tools (State w (line :: rest))
  = match r with
    | Ret _ => (s1, query_prompt :: t1 ++ [Print (PyStr.chr PyStr.LF)], Ret Continue)
    | Raise e =>
        if is_Exception e
        then (s1, query_prompt :: t1 ++ [client_error e], Ret Continue)
        else (s1, query_prompt :: t1, Raise e)
    | Hang => (s1, query_prompt :: t1, Hang)
    end.
Proof.
  intros Hq Hpq. unfold is_quit in Hq.
  unfold Client.chat_turn, try_except, mbind, M_bind, input.
  cbn [stdin world]. rewrite Hq, Hpq.
  destruct r as [v|e|]; [reflexivity | | reflexivity].
  destruct (is_Exception e); reflexivity.
Qed.

Lemma client_turn_eof tools w :
  Client.chat_turn E tools (State w [])
  = (State w [], [query_prompt; client_error end_of_input], Ret Continue).
Proof. reflexivity. Qed.

End ClientQuery.

(** ** The loops *)

Section Loops.
Context {W : Type} (E : Env W).
Implicit Types (s : state W) (w : W) (tools : list tool).

Lemma chatbot_while_continue n s s1 t1 :
  Chatbot.chat_turn E s = (s1, t1, Ret Continue) →
  Chatbot.chat_while E (S n) s = after t1 (Chatbot.chat_while E n s1).
Proof.
  intros Ht. cbn [Chatbot.chat_while]. unfold mbind, M_bind. rewrite Ht.
  unfold after. now destruct (Chatbot.chat_while E n s1) as [[s2 t2] r].
Qed.

Lemma chatbot_while_break n s s1 t1 :
  Chatbot.chat_turn E s = (s1, t1, Ret Break) →
  Chatbot.chat_while E (S n) s = (s1, t1, Ret tt).
Proof.
  intros Ht. cbn [Chatbot.chat_while]. unfold mbind, M_bind. rewrite Ht.
  cbn. now rewrite app_nil_r.
Qed.

Lemma client_while_continue tools n s s1 t1 :
  Client.chat_turn E tools s = (s1, t1, Ret Continue) →
  Client.chat_while E tools (S n) s = after t1 (Client.chat_while E tools n s1).
Proof.
  intros Ht. cbn [Client.chat_while]. unfold mbind, M_bind. rewrite Ht.
  unfold after. now destruct (Client.chat_while E tools n s1) as [[s2 t2] r].
Qed.

Lemma client_while_break tools n s s1 t1 :
  Client.chat_turn E tools s = (s1, t1, Ret Break) →
  Client.chat_while E tools (S n) s = (s1, t1, Ret tt).
Proof.
  intros Ht. cbn [Client.chat_while]. unfold mbind, M_bind. rewrite Ht.
  cbn. now rewrite app_nil_r.
Qed.

Lemma client_while_raise tools n s s1 t1 e :
  Client.chat_turn E tools s = (s1, t1, Raise e) →
  Client.chat_while E tools (S n) s = (s1, t1, Raise e).
Proof.
  intros Ht. cbn [Client.chat_while]. unfold mbind, M_bind. now rewrite Ht.
Qed.

(** What a pass of the remote loop can be on a line of input. *)
Lemma client_turn_on_line tools w line rest :
  ∃ s1 t1 r,
    Client.chat_turn E tools (State w (line :: rest)) = (s1, t1, r)
    ∧ stdin s1 = rest
    ∧ forallb quiet t1 = true
    ∧ (if is_quit line then r = Ret Break
       else r = Ret Continue ∨ ∃ e, r = Raise e).
Proof.
  destruct (is_quit line) eqn:Hq.
  - rewrite (client_turn_quit E _ _ _ _ Hq). now eexists _, _, _.
  - destruct (client_process_query_tame E tools (PyStr.strip line) (State w rest))
      as (Hin & Hout & Hquiet).
    destruct (Client.process_query E tools (PyStr.strip line) (State w rest))
      as [[s1 t1] r] eqn:Hpq.
    rewrite (client_turn_query E _ _ _ _ _ _ _ Hq Hpq). simpl in *.
    destruct r as [v|e|]; [| |congruence].
    + eexists _, _, _. split; [reflexivity|]. repeat split; [exact Hin | | now left].
      cbn. now rewrite forallb_app, Hquiet.
    + destruct (is_Exception e).
      * eexists _, _, _. split; [reflexivity|].
        repeat split; [exact Hin | | now left].
        cbn. now rewrite forallb_app, Hquiet.
      * eexists _, _, _. split; [reflexivity|].
        repeat split; [exact Hin | exact Hquiet | right; now exists e].
Qed.

(** The remote loop neither enters nor leaves a channel. *)
Lemma client_while_quiet tools fuel s :
  forallb quiet (trace_of (Client.chat_while E tools fuel s)) = true.
Proof.
  revert s. induction fuel as [|n IH]; intros [w lines]; [reflexivity|].
  destruct lines as [|line rest].
  - rewrite (client_while_continue _ _ _ _ _ (client_turn_eof E tools w)).
    unfold after, trace_of. cbn. apply IH.
  - destruct (client_turn_on_line tools w line rest) as (s1 & t1 & r & Ht & _ & Hq & Hr).
    destruct (is_quit line).
    + subst r. now rewrite (client_while_break _ _ _ _ _ Ht).
    + destruct Hr as [-> | [e ->]].
      * rewrite (client_while_continue _ _ _ _ _ Ht). unfold after, trace_of. cbn.
        rewrite forallb_app, Hq. apply IH.
      * now rewrite (client_while_raise _ _ _ _ _ _ Ht).
Qed.

(** With a quit line at position [n] of the input, the remote loop ends
    within [n + 1] passes. *)
Lemma client_while_ends_on_quit tools n fuel s :
  quit_after n (stdin s) = true → n < fuel →
  outcome_of (Client.chat_while E tools fuel s) ≠ Hang.
Proof.
  revert fuel s. induction n as [|n IH]; intros fuel [w lines] Hquit Hfuel;
    (destruct fuel as [|fuel]; [lia|]);
    (destruct lines as [|line rest]; [discriminate Hquit|]);
    cbn [stdin quit_after] in Hquit.
  - rewrite (client_while_break _ _ _ _ _ (client_turn_quit E tools w line rest Hquit)).
    discriminate.
  - apply andb_prop in Hquit as [Hline Hrest]. apply negb_true_iff in Hline.
    destruct (client_turn_on_line tools w line rest) as (s1 & t1 & r & Ht & Hin & _ & Hr).
    rewrite Hline in Hr. destruct Hr as [-> | [e ->]].
    + rewrite (client_while_continue _ _ _ _ _ Ht). unfold after, outcome_of. cbn.
      apply IH; [now rewrite Hin | lia].
    + rewrite (client_while_raise _ _ _ _ _ _ Ht). discriminate.
Qed.

(** At the end of the input the remote loop goes on for ever: every pass
    catches the [EOFError] of [input] and starts the next one. *)
Lemma client_while_eof_hangs tools fuel w :
  outcome_of (Client.chat_while E tools fuel (State w [])) = Hang.
Proof.
  induction fuel as [|n IH]; [reflexivity|].
  rewrite (client_while_continue _ _ _ _ _ (client_turn_eof E tools w)).
  exact IH.
Qed.

Lemma chatbot_while_eof_hangs fuel w :
  outcome_of (Chatbot.chat_while E fuel (State w [])) = Hang.
Proof.
  induction fuel as [|n IH]; [reflexivity|].
  rewrite (chatbot_while_continue _ _ _ _ (chatbot_turn_eof E w)).
  exact IH.
Qed.

End Loops.

(** ** The session of [client.py] *)

Section Session.
Context {W : Type} (E : Env W).
Implicit Types (s : state W) (w : W) (tools : list tool).

Lemma connect_unfold fuel :
  Client.connect_to_server_and_run E fuel
  = with_ctx StdioChannel (ext (stdio_client E))
      (with_ctx Session (ext (ClientSession E)) (session_block E fuel)).
Proof. reflexivity. Qed.

Lemma closes_app r (t u : list event) :
  closes r (t ++ u) = closes r t + closes r u.
Proof. unfold closes. now rewrite List.filter_app, length_app. Qed.

Lemma closes_quiet r (t : list event) :
  forallb quiet t = true → closes r t = 0.
Proof.
  induction t as [|ev t IH]; [reflexivity|]. cbn [forallb].
  intros Hq. apply andb_prop in Hq as [Hev Ht]. specialize (IH Ht).
  unfold closes in *. cbn [List.filter].
  destruct ev; try exact IH; discriminate Hev.
Qed.

(** The tools the list comprehension builds. *)
Lemma new_tools_accepted (listed : list remote_tool) :
  Forall (accepted E) listed →
  Client.new_tools E listed = inr (List.map Client.tool_of listed).
Proof.
  induction 1 as [|t listed Ht _ IH]; [reflexivity|].
  cbn [Client.new_tools List.map]. unfold Client.new_tool.
  unfold accepted in Ht. now rewrite Ht, IH.
Qed.


Lemma new_tools_built (listed : list remote_tool) tools :
  Client.new_tools E listed = inr tools →
  tools = List.map Client.tool_of listed ∧ Forall (accepted E) listed.
Proof.
  revert tools. induction listed as [|t listed IH]; intros tools Hb.
  - injection Hb as <-. split; [reflexivity | constructor].
  - cbn [Client.new_tools] in Hb. unfold Client.new_tool in Hb.
    destruct (validate E [Client.declaration_of t]) as [e|] eqn:Hv;
      [discriminate Hb|].
    destruct (Client.new_tools E listed) as [e|xs]; [discriminate Hb|].
    injection Hb as <-. destruct (IH xs eq_refl) as [-> Hall].
    split; [reflexivity | now constructor].
Qed.

(** The block after a handshake and a listing that both succeed, when the
    library accepts the declarations. *)
Lemma session_block_runs fuel w lines w3 w4 listed tools :
  initialize E w = (w3, inr tt) →
  list_tools E w3 = (w4, inr listed) →
  Client.new_tools E listed = inr tools →
  session_block E fuel (State w lines)
  = after (greeting listed) (Client.chat_while E tools fuel (State w4 lines)).
Proof.
  intros Hi Hl Hb.
  unfold session_block, Client.chat_loop, mbind, M_bind, ext, print, emit, settle.
  cbn [world stdin]. rewrite Hi. cbn [world stdin]. rewrite Hl, Hb.
  unfold after.
  now destruct (Client.chat_while E tools fuel (State w4 lines)) as [[s2 t2] r].
Qed.

(** The block when the library refuses a declaration. *)
Lemma session_block_refused fuel w lines w3 w4 listed e :
  initialize E w = (w3, inr tt) →
  list_tools E w3 = (w4, inr listed) →
  Client.new_tools E listed = inl e →
  session_block E fuel (State w lines) = (State w4 lines, [connected listed], Raise e).
Proof.
  intros Hi Hl Hb.
  unfold session_block, mbind, M_bind, ext, emit, settle.
  cbn [world stdin]. rewrite Hi. cbn [world stdin]. now rewrite Hl, Hb.
Qed.

Lemma session_block_handshake_fails fuel w lines w3 e :
  initialize E w = (w3, inl e) →
  session_block E fuel (State w lines) = (State w3 lines, [], Raise e).
Proof.
  intros Hi. unfold session_block, mbind, M_bind, ext.
  cbn [world stdin]. now rewrite Hi.
Qed.

Lemma session_block_listing_fails fuel w lines w3 w4 e :
  initialize E w = (w3, inr tt) →
  list_tools E w3 = (w4, inl e) →
  session_block E fuel (State w lines) = (State w4 lines, [], Raise e).
Proof.
  intros Hi Hl. unfold session_block, mbind, M_bind, ext.
  cbn [world stdin]. rewrite Hi. cbn [world stdin]. now rewrite Hl.
Qed.

(** The block neither enters nor leaves a channel, and it ends when the
    input holds a quit line within the fuel. *)
Lemma session_block_quiet fuel s :
  forallb quiet (trace_of (session_block E fuel s)) = true
  ∧ ∀ n, quit_after n (stdin s) = true → n < fuel →
         outcome_of (session_block E fuel s) ≠ Hang.
Proof.
  destruct s as [w lines].
  destruct (initialize E w) as [w3 [e|[]]] eqn:Hi.
  { rewrite (session_block_handshake_fails _ _ _ _ _ Hi). split; [reflexivity|].
    intros; discriminate. }
  destruct (list_tools E w3) as [w4 [e|listed]] eqn:Hl.
  { rewrite (session_block_listing_fails _ _ _ _ _ _ Hi Hl). split; [reflexivity|].
    intros; discriminate. }
  destruct (Client.new_tools E listed) as [e|tools] eqn:Hb.
  { rewrite (session_block_refused _ _ _ _ _ _ _ Hi Hl Hb). split; [reflexivity|].
    intros; discriminate. }
  rewrite (session_block_runs _ _ _ _ _ _ _ Hi Hl Hb). unfold after, trace_of, outcome_of.
  cbn [fst snd]. split.
  - rewrite forallb_app. cbn. apply client_while_quiet.
  - intros n Hq Hn. now apply (client_while_ends_on_quit E _ n).
Qed.

Lemma ext_returns {A} (f : W → W * (exn + A)) s w a :
  f (world s) = (w, inr a) → ext f s = (State w (stdin s), [], Ret a).
Proof. intros Hf. unfold ext. now rewrite Hf. Qed.

(** The whole session once both channels are entered. *)
Lemma connect_runs fuel s w1 w2 :
  stdio_client E (world s) = (w1, inr tt) →
  ClientSession E w1 = (w2, inr tt) →
  Client.connect_to_server_and_run E fuel s
  = match session_block E fuel (State w2 (stdin s)) with
    | (s2, t2, Hang) => (s2, Enter StdioChannel :: Enter Session :: t2, Hang)
    | (s2, t2, r) =>
        (s2, Enter StdioChannel :: Enter Session :: t2
               ++ [Exit Session; Exit StdioChannel], r)
    end.
Proof.
  intros H1 H2. rewrite connect_unfold. unfold with_ctx.
  rewrite (ext_returns _ _ _ _ H1).
  rewrite (ext_returns (ClientSession E) (State w1 (stdin s)) w2 tt H2).
  cbn [stdin].
  destruct (session_block E fuel (State w2 (stdin s))) as [[s2 t2] [[]|e|]];
    cbn; rewrite <- ?app_assoc; reflexivity.
Qed.

End Session.

Section SessionTeardown.
Context {W : Type} (E : Env W).
Implicit Types (s : state W) (w : W).

(** At the end of the input a session whose handshake succeeded never ends
    and never leaves a channel. *)
Lemma connect_eof_never_closes fuel s w1 w2 w3 w4 listed r :
  stdio_client E (world s) = (w1, inr tt) →
  ClientSession E w1 = (w2, inr tt) →
  initialize E w2 = (w3, inr tt) →
  list_tools E w3 = (w4, inr listed) →
  Forall (accepted E) listed →
  stdin s = [] →
  outcome_of (Client.connect_to_server_and_run E fuel s) = Hang
  ∧ closes r (trace_of (Client.connect_to_server_and_run E fuel s)) = 0.
Proof.
  intros H1 H2 Hi Hl Hall Hin.
  rewrite (connect_runs E fuel s w1 w2 H1 H2), Hin.
  rewrite (session_block_runs E fuel w2 [] w3 w4 listed _ Hi Hl
             (new_tools_accepted E listed Hall)).
  pose proof (client_while_eof_hangs E (List.map Client.tool_of listed) fuel w4) as Hhang.
  pose proof (client_while_quiet E (List.map Client.tool_of listed) fuel (State w4 [])) as Hq.
  destruct (Client.chat_while E (List.map Client.tool_of listed) fuel (State w4 []))
    as [[s2 t2] r2].
  unfold outcome_of, trace_of, after in *. cbn [fst snd] in *. subst r2.
  split; [reflexivity|]. cbn [fst snd].
  change (Enter StdioChannel :: Enter Session :: greeting listed ++ t2)
    with ([Enter StdioChannel; Enter Session] ++ greeting listed ++ t2).
  rewrite closes_app, (closes_quiet r (greeting listed ++ t2)); [now destruct r|].
  rewrite forallb_app. exact Hq.
Qed.

(** C8 (amended): a session of the remote variant whose two channels were
    entered and which ends, in whatever way, leaves each channel exactly
    once, the session first and the transport last, after everything the
    loop did; nothing between entering and leaving enters or leaves a
    channel.  The session does end when the input holds a quit line (within
    the fuel), when the handshake fails, and when a query raises an exception
    that [except Exception] does not catch (in a session whose tools the
    library accepted). *)
Theorem session_closed_exactly_once fuel s w1 w2 :
  stdio_client E (world s) = (w1, inr tt) →
  ClientSession E w1 = (w2, inr tt) →
  (outcome_of (Client.connect_to_server_and_run E fuel s) ≠ Hang →
     ∃ body,
       trace_of (Client.connect_to_server_and_run E fuel s)
       = Enter StdioChannel :: Enter Session :: body
           ++ [Exit Session; Exit StdioChannel]
       ∧ forallb quiet body = true
       ∧ closes Session (trace_of (Client.connect_to_server_and_run E fuel s)) = 1
       ∧ closes StdioChannel (trace_of (Client.connect_to_server_and_run E fuel s)) = 1)
  ∧ (∀ n, quit_after n (stdin s) = true → n < fuel →
       outcome_of (Client.connect_to_server_and_run E fuel s) = Ret tt
       ∨ ∃ e, outcome_of (Client.connect_to_server_and_run E fuel s) = Raise e)
  ∧ (∀ w3 e, initialize E w2 = (w3, inl e) →
       outcome_of (Client.connect_to_server_and_run E fuel s) = Raise e)
  ∧ (∀ w3 w4 listed line rest s1 t1 e n,
       initialize E w2 = (w3, inr tt) →
       list_tools E w3 = (w4, inr listed) →
       Forall (accepted E) listed →
       stdin s = line :: rest → is_quit line = false → fuel = S n →
       Client.process_query E (List.map Client.tool_of listed) (PyStr.strip line)
         (State w4 rest) = (s1, t1, Raise e) →
       is_Exception e = false →
       outcome_of (Client.connect_to_server_and_run E fuel s) = Raise e).
Proof.
  intros H1 H2. rewrite (connect_runs E fuel s w1 w2 H1 H2).
  destruct (session_block_quiet E fuel (State w2 (stdin s))) as [Hquiet Hends].
  split; [|split; [|split]].
  - destruct (session_block E fuel (State w2 (stdin s))) as [[s2 t2] r] eqn:Hb.
    unfold trace_of in Hquiet. cbn [fst snd] in Hquiet.
    assert (Hcount : ∀ c, closes c (Enter StdioChannel :: Enter Session :: t2
                                      ++ [Exit Session; Exit StdioChannel]) = 1).
    { intros c.
      change (Enter StdioChannel :: Enter Session :: t2 ++ [Exit Session; Exit StdioChannel])
        with ([Enter StdioChannel; Enter Session] ++ t2 ++ [Exit Session; Exit StdioChannel]).
      rewrite !closes_app, (closes_quiet c t2 Hquiet). now destruct c. }
    destruct r as [[]|e|]; unfold trace_of, outcome_of; cbn [fst snd];
      intros Hout; [| |congruence];
      (exists t2; repeat split; [exact Hquiet | apply Hcount | apply Hcount]).
  - intros n Hq Hn. specialize (Hends n Hq Hn).
    destruct (session_block E fuel (State w2 (stdin s))) as [[s2 t2] [[]|e|]];
      unfold outcome_of in *; cbn [snd] in *; [now left | right; now exists e | congruence].
  - intros w3 e Hi.
    now rewrite (session_block_handshake_fails E fuel w2 (stdin s) w3 e Hi).
  - intros w3 w4 listed line rest s1 t1 e n Hi Hl Hall Hin Hline -> Hpq Hbase.
    rewrite (session_block_runs E (S n) w2 (stdin s) w3 w4 listed _ Hi Hl
               (new_tools_accepted E listed Hall)), Hin.
    pose proof (client_turn_query E _ w4 line rest s1 t1 _ Hline Hpq) as Ht.
    cbn match in Ht. rewrite Hbase in Ht.
    rewrite (client_while_raise E _ n _ _ _ _ Ht). reflexivity.
Qed.

End SessionTeardown.

(** A session of two lines, a query and a quit: both channels are left
    exactly once. *)
Lemma session_closed_exactly_once_witness :
  stdio_client Fixture.greeter tt = (tt, inr tt)
  ∧ closes Session
      (trace_of (Client.connect_to_server_and_run
                   Fixture.greeter
                   3 (Fixture.start ["hello"; "quit"]))) = 1
  ∧ closes StdioChannel
      (trace_of (Client.connect_to_server_and_run
                   Fixture.greeter
                   3 (Fixture.start ["hello"; "quit"]))) = 1.
Proof.
  split; [reflexivity|].
  destruct (session_closed_exactly_once
              Fixture.greeter
              3 (Fixture.start ["hello"; "quit"]) tt tt eq_refl eq_refl)
    as [Hclosed _].
  assert (Hends : outcome_of
                    (Client.connect_to_server_and_run
                       Fixture.greeter
                       3 (Fixture.start ["hello"; "quit"])) ≠ Hang)
    by (intros Hout; vm_compute in Hout; discriminate Hout).
  destruct (Hclosed Hends) as (body & _ & _ & Hs & Ht).
  split; [exact Hs | exact Ht].
Defined.

(** A session at the end of its input: for every fuel the run is still
    inside the loop, and neither channel has been left. *)
Lemma end_of_input_never_closes :
  (∀ fuel,
     outcome_of (Client.connect_to_server_and_run
                   Fixture.greeter
                   fuel (Fixture.start [])) = Hang)
  ∧ (∀ fuel r,
     closes r
       (trace_of (Client.connect_to_server_and_run
                    Fixture.greeter
                    fuel (Fixture.start []))) = 0).
Proof.
  split; intros fuel; [|intros r].
  - exact (proj1 (connect_eof_never_closes Fixture.greeter fuel (Fixture.start []) tt tt tt tt []
                    Session eq_refl eq_refl eq_refl eq_refl (List.Forall_nil _) eq_refl)).
  - exact (proj2 (connect_eof_never_closes Fixture.greeter fuel (Fixture.start []) tt tt tt tt []
                    r eq_refl eq_refl eq_refl eq_refl (List.Forall_nil _) eq_refl)).
Qed.

(** ** The Conversation Loop *)

Section ConversationLoop.
Context {W : Type} (E : Env W).
Implicit Types (s : state W) (w : W) (tools : list tool).

(** C3 (amended): a line is a quit exactly when it is [quit] after trimming
    and lower-casing; ["quit"], ["QUIT"] and ["  quit  "] are, and on such a
    line both loops end without a request to the model service.  Every other
    line is trimmed and sent to the model service as a query: ["quit me"] is
    one, and so is the empty line. *)
Theorem quit_detection w line rest tools n :
  (is_quit line = true →
     Chatbot.chat_while E (S n) (State w (line :: rest))
     = (State w rest, [query_prompt], Ret tt)
     ∧ Client.chat_while E tools (S n) (State w (line :: rest))
       = (State w rest, [query_prompt], Ret tt))
  ∧ (is_quit line = false →
     (∃ t, trace_of (Chatbot.chat_turn E (State w (line :: rest)))
           = query_prompt :: Generate (PyStr.strip line) :: t)
     ∧ (∃ t, trace_of (Client.chat_turn E tools (State w (line :: rest)))
             = query_prompt :: Generate (PyStr.strip line) :: t)
     ∧ outcome_of (Chatbot.chat_turn E (State w (line :: rest))) ≠ Ret Break
     ∧ outcome_of (Client.chat_turn E tools (State w (line :: rest))) ≠ Ret Break)
  ∧ is_quit "quit" = true ∧ is_quit "QUIT" = true ∧ is_quit "  quit  " = true
  ∧ is_quit "quit me" = false ∧ is_quit "" = false.
Proof.
  split; [|split; [|repeat split; reflexivity]].
  - intros Hq. split.
    + apply chatbot_while_break, chatbot_turn_quit, Hq.
    + apply client_while_break, client_turn_quit, Hq.
  - intros Hq.
    destruct (chatbot_process_query_generates E (PyStr.strip line) (State w rest))
      as [t Ht].
    destruct (client_process_query_generates E tools (PyStr.strip line) (State w rest))
      as [t' Ht'].
    destruct (Chatbot.process_query E (PyStr.strip line) (State w rest))
      as [[s1 t1] r] eqn:Hpq.
    destruct (Client.process_query E tools (PyStr.strip line) (State w rest))
      as [[s1' t1'] r'] eqn:Hpq'.
    rewrite (chatbot_turn_query E w line rest s1 t1 r Hq Hpq).
    rewrite (client_turn_query E tools w line rest s1' t1' r' Hq Hpq').
    unfold trace_of, outcome_of in *. cbn [fst snd] in Ht, Ht'. subst t1 t1'.
    repeat split.
    + destruct r as [v|e|]; [| destruct (is_Exception e) |]; eexists; reflexivity.
    + destruct r' as [v|e|]; [| destruct (is_Exception e) |]; eexists; reflexivity.
    + destruct r as [v|e|]; [| destruct (is_Exception e) |]; discriminate.
    + destruct r' as [v|e|]; [| destruct (is_Exception e) |]; discriminate.
Qed.

(** C4: an exception of class [Exception] raised while a query is processed
    is caught by the loop, in both variants: the pass prints the error line
    with the exception's message, and the loop goes on with the next pass.
    So it is for a failure of the model service and for a fault of the
    channel in the middle of a session.  A failure of the handshake is not
    caught by anything: it ends [connect_to_server_and_run] with that
    exception, after both channels have been left. *)
Theorem per_turn_errors_are_caught w line rest tools e :
  is_quit line = false →
  is_Exception e = true →
  (∀ s1 t1 n,
     Chatbot.process_query E (PyStr.strip line) (State w rest) = (s1, t1, Raise e) →
     Chatbot.chat_turn E (State w (line :: rest))
     = (s1, query_prompt :: t1 ++ [chatbot_error e], Ret Continue)
     ∧ Chatbot.chat_while E (S n) (State w (line :: rest))
       = after (query_prompt :: t1 ++ [chatbot_error e]) (Chatbot.chat_while E n s1))
  ∧ (∀ s1 t1 n,
     Client.process_query E tools (PyStr.strip line) (State w rest) = (s1, t1, Raise e) →
     Client.chat_turn E tools (State w (line :: rest))
     = (s1, query_prompt :: t1 ++ [client_error e], Ret Continue)
     ∧ Client.chat_while E tools (S n) (State w (line :: rest))
       = after (query_prompt :: t1 ++ [client_error e]) (Client.chat_while E tools n s1))
  ∧ (∀ w1,
     generate_content E [Tool Chatbot.TOOLS] (PyStr.strip line) w = (w1, inl e) →
     Chatbot.chat_turn E (State w (line :: rest))
     = (State w1 rest,
        [query_prompt; Generate (PyStr.strip line); chatbot_error e],
        Ret Continue))
  ∧ (∀ w1,
     generate_content E tools (PyStr.strip line) w = (w1, inl e) →
     Client.chat_turn E tools (State w (line :: rest))
     = (State w1 rest,
        [query_prompt; Generate (PyStr.strip line); client_error e],
        Ret Continue))
  ∧ (∀ w1 fname args w2,
     generate_content E tools (PyStr.strip line) w
     = (w1, inr (FunctionCall fname args)) →
     call_tool E fname args w1 = (w2, inl e) →
     Client.chat_turn E tools (State w (line :: rest))
     = (State w2 rest,
        query_prompt
          :: (Generate (PyStr.strip line) :: call_banner fname args
                ++ [CallTool fname args])
          ++ [client_error e],
        Ret Continue))
  ∧ (∀ s w1 w2 w3 e' fuel,
     stdio_client E (world s) = (w1, inr tt) →
     ClientSession E w1 = (w2, inr tt) →
     initialize E w2 = (w3, inl e') →
     Client.connect_to_server_and_run E fuel s
     = (State w3 (stdin s),
        [Enter StdioChannel; Enter Session; Exit Session; Exit StdioChannel],
        Raise e')).
Proof.
  intros Hq He. split; [|split; [|split; [|split; [|split]]]].
  - intros s1 t1 n Hpq.
    pose proof (chatbot_turn_query E w line rest s1 t1 _ Hq Hpq) as Ht.
    cbn match in Ht. rewrite He in Ht.
    split; [exact Ht | now apply chatbot_while_continue].
  - intros s1 t1 n Hpq.
    pose proof (client_turn_query E tools w line rest s1 t1 _ Hq Hpq) as Ht.
    cbn match in Ht. rewrite He in Ht.
    split; [exact Ht | now apply client_while_continue].
  - intros w1 Hg.
    pose proof (chatbot_query_gateway_fails E (PyStr.strip line) (State w rest)
                  w1 e Hg) as Hpq.
    pose proof (chatbot_turn_query E w line rest _ _ _ Hq Hpq) as Ht.
    cbn match in Ht. rewrite He in Ht. exact Ht.
  - intros w1 Hg.
    pose proof (client_query_gateway_fails E tools (PyStr.strip line) (State w rest)
                  w1 e Hg) as Hpq.
    pose proof (client_turn_query E tools w line rest _ _ _ Hq Hpq) as Ht.
    cbn match in Ht. rewrite He in Ht. exact Ht.
  - intros w1 fname args w2 Hg Hc.
    pose proof (client_query_call_fails E tools (PyStr.strip line) (State w rest)
                  w1 fname args w2 e Hg Hc) as Hpq.
    pose proof (client_turn_query E tools w line rest _ _ _ Hq Hpq) as Ht.
    cbn match in Ht. rewrite He in Ht. exact Ht.
  - intros s w1 w2 w3 e' fuel H1 H2 Hi.
    rewrite (connect_runs E fuel s w1 w2 H1 H2).
    now rewrite (session_block_handshake_fails E fuel w2 (stdin s) w3 e' Hi).
Qed.

(** C10: after a query of the local variant, the loop prints the result,
    under the line [Result:], only when the result is truthy.  For a falsy
    result ([None], which every plain-text answer gives, the empty string,
    the empty list) the pass adds nothing to what the query printed and the
    loop goes on. *)
Theorem result_shown_only_when_truthy w line rest s1 t1 v :
  is_quit line = false →
  Chatbot.process_query E (PyStr.strip line) (State w rest) = (s1, t1, Ret v) →
  Chatbot.chat_turn E (State w (line :: rest))
  = (s1, query_prompt :: t1 ++ shown v, Ret Continue)
  ∧ (truthy v = true → shown v = [Print "Result:"; Print (py_str v)])
  ∧ (truthy v = false →
     Chatbot.chat_turn E (State w (line :: rest))
     = (s1, query_prompt :: t1, Ret Continue))
  ∧ (∀ w' text,
       generate_content E [Tool Chatbot.TOOLS] (PyStr.strip line) w
       = (w', inr (PlainText text)) → v = VNone)
  ∧ truthy VNone = false ∧ truthy (VStr "") = false ∧ truthy (VList []) = false.
Proof.
  intros Hq Hpq.
  pose proof (chatbot_turn_query E w line rest s1 t1 _ Hq Hpq) as Ht.
  cbn match in Ht.
  split; [exact Ht|]. split; [|split; [|split; [|repeat split]]].
  - intros Hv. unfold shown. now rewrite Hv.
  - intros Hv. rewrite Ht. unfold shown. rewrite Hv. now rewrite app_nil_r.
  - intros w' text Hg.
    rewrite (chatbot_query_plain_text E _ (State w rest) w' text Hg) in Hpq.
    congruence.
Qed.

End ConversationLoop.

(** The empty line is a query like any other: both loops send it to the
    model service. *)
Lemma empty_line_is_dispatched :
  Chatbot.chat_turn Fixture.greeter (Fixture.start [""])
  = (Fixture.start [],
     [query_prompt; Generate "";
      Print "No function call found in the response."; Print "Hello!"],
     Ret Continue)
  ∧ Client.chat_turn Fixture.greeter [] (Fixture.start [""])
    = (Fixture.start [],
       [query_prompt; Generate ""; Print "No Function called"; Print "Hello!";
        Print (PyStr.chr PyStr.LF)],
       Ret Continue).
Proof. split; vm_compute; reflexivity. Qed.

(** A failing [search_papers] in the local loop. *)
Lemma per_turn_errors_are_caught_witness :
  is_quit "papers on x" = false
  ∧ is_Exception Fixture.unreachable = true
  ∧ Chatbot.chat_turn Fixture.failing (Fixture.start ["papers on x"; "quit"])
    = (Fixture.start ["quit"],
       query_prompt
         :: (Generate "papers on x" :: call_banner "search_papers" Fixture.topic_x)
         ++ [chatbot_error Fixture.unreachable],
       Ret Continue).
Proof.
  split; [reflexivity|]. split; [reflexivity|].
  destruct (per_turn_errors_are_caught Fixture.failing tt "papers on x" ["quit"] []
              Fixture.unreachable eq_refl eq_refl) as [Hlocal _].
  exact (proj1 (Hlocal (Fixture.start ["quit"])
                  (Generate "papers on x" :: call_banner "search_papers" Fixture.topic_x)
                  0 eq_refl)).
Defined.

(** A plain-text answer: the pass prints what the query printed, and no
    result. *)
Lemma result_shown_only_when_truthy_witness :
  is_quit "hello" = false
  ∧ Chatbot.chat_turn Fixture.greeter (Fixture.start ["hello"])
    = (Fixture.start [],
       [query_prompt; Generate "hello";
        Print "No function call found in the response."; Print "Hello!"],
       Ret Continue).
Proof.
  split; [reflexivity|].
  destruct (result_shown_only_when_truthy Fixture.greeter tt "hello" []
              (Fixture.start [])
              [Generate "hello"; Print "No function call found in the response.";
               Print "Hello!"]
              VNone eq_refl eq_refl) as (_ & _ & Hfalsy & _).
  exact (Hfalsy eq_refl).
Defined.

(** ** Failures of a tool and unknown tools *)

Section ToolFailures.
Context {W : Type} (E : Env W).
Implicit Types (s : state W) (w : W) (f : handler W)
  (m : gmap string (handler W)).

(** C5 (amended): when the handler of a function call raises,
    [execute_tool] returns no text: the handler's exception leaves it
    unchanged.  The failure is reported and not fatal because the loop
    catches it: a pass whose tool function raises an exception of class
    [Exception] prints the error line with its message and goes on. *)
Theorem handler_error_propagates tool_name tool_args m f s w lines e :
  m !! tool_name = Some f →
  f tool_args (world s) = (w, lines, inl e) →
  Chatbot.execute_tool tool_name tool_args m s
  = (State w (stdin s), List.map Print lines, Raise e)
  ∧ (∀ text, outcome_of (Chatbot.execute_tool tool_name tool_args m s) ≠ Ret text)
  ∧ (∀ w0 line rest w1 args w2 printed,
       is_Exception e = true →
       is_quit line = false →
       generate_content E [Tool Chatbot.TOOLS] (PyStr.strip line) w0
       = (w1, inr (FunctionCall "search_papers" args)) →
       search_papers E args w1 = (w2, printed, inl e) →
       Chatbot.chat_turn E (State w0 (line :: rest))
       = (State w2 rest,
          query_prompt
            :: (Generate (PyStr.strip line) :: call_banner "search_papers" args
                  ++ List.map Print printed)
            ++ [chatbot_error e],
          Ret Continue)).
Proof.
  intros Hm Hf.
  pose proof (execute_tool_handler_raises _ _ _ _ _ _ _ _ Hm Hf) as Hrun.
  split; [exact Hrun|]. split.
  - intros text. rewrite Hrun. discriminate.
  - intros w0 line rest w1 args w2 printed He Hq Hg Hs.
    pose proof (chatbot_query_search_papers E (PyStr.strip line) (State w0 rest)
                  w1 args w2 printed (inl e) Hg Hs) as Hpq.
    pose proof (chatbot_turn_query E w0 line rest _ _ _ Hq Hpq) as Ht.
    cbn [of_sum] in Ht. cbn match in Ht. rewrite He in Ht. exact Ht.
Qed.


End ToolFailures.

(** A failing handler, called through [execute_tool]: the exception comes
    out, and no text. *)
Lemma execute_tool_raises_with_handler :
  Chatbot.execute_tool "search_papers" Fixture.topic_x
    (<["search_papers" := Fixture.raises Fixture.unreachable]> ∅) (Fixture.start [])
  = (Fixture.start [], [], Raise Fixture.unreachable).
Proof. vm_compute. reflexivity. Qed.

Lemma handler_error_propagates_witness :
  (<["search_papers" := Fixture.raises Fixture.unreachable]> (∅ : gmap string (handler unit)))
    !! "search_papers" = Some (Fixture.raises Fixture.unreachable)
  ∧ Chatbot.execute_tool "search_papers" Fixture.topic_x
      (<["search_papers" := Fixture.raises Fixture.unreachable]> ∅) (Fixture.start [])
    = (Fixture.start [], [], Raise Fixture.unreachable).
Proof.
  split; [apply lookup_insert_eq|].
  exact (proj1 (handler_error_propagates Fixture.failing "search_papers" Fixture.topic_x
                  (<["search_papers" := Fixture.raises Fixture.unreachable]> ∅)
                  (Fixture.raises Fixture.unreachable) (Fixture.start []) tt []
                  Fixture.unreachable (lookup_insert_eq _ _ _) eq_refl)).
Defined.


(** The model asks for [echoCount], which is neither of the two names of
    [process_query]: the pass prints the message of the unbound [result],
    which does not name the tool, and the loop goes on. *)
Example unknown_tool_example :
  Chatbot.chat_turn Fixture.confused (Fixture.start ["count x"])
  = (Fixture.start [],
     [query_prompt; Generate "count x"; Print "Function to call: echoCount";
      Print "Arguments: {'topic': 'x'}";
      chatbot_error Chatbot.result_unbound],
     Ret Continue)
  ∧ chatbot_error Chatbot.result_unbound
    = Print (String PyStr.LF
               " Error: cannot access local variable 'result' where it is not associated with a value").
Proof. split; vm_compute; reflexivity. Qed.

(** ** The tools of the tool-host *)

Lemma kept_spec (k : string) :
  Client.kept k = true ↔ k ≠ "additionalProperties" ∧ k ≠ "$schema".
Proof.
  unfold Client.kept, Client.stripped_keys. cbn [existsb].
  rewrite negb_true_iff, !orb_false_iff, !String.eqb_neq. tauto.
Qed.



Lemma parameters_of_sublist (schema : pydict pyval) :
  sublist (Client.parameters_of schema) schema.
Proof.
  induction schema as [|[k v] schema IH]; [constructor|].
  cbn [Client.parameters_of List.filter]. fold (Client.parameters_of schema).
  destruct (Client.kept k); now constructor.
Qed.

Section Declarations.
Context {W : Type} (E : Env W).


End Declarations.


(** ** The result a query displays *)

Section DisplayedResult.
Context {W : Type} (E : Env W).
Implicit Types (s : state W) (w : W) (tools : list tool).


End DisplayedResult.



(** * More of the code: the tools, [main], and the loops at their edges *)

(** ** Dicts *)

Lemma dict_get_set_eq {V} (k : string) (v : V) (d : pydict V) :
  dict_get k (Papers.dict_set k v d) = Some v.
Proof.
  induction d as [|[k' v'] d IH]; cbn [Papers.dict_set dict_get].
  - now rewrite String.eqb_refl.
  - destruct (String.eqb k k') eqn:Hk; cbn [dict_get]; rewrite ?String.eqb_refl, ?Hk;
      [reflexivity | exact IH].
Qed.

Lemma dict_get_set_ne {V} (k k' : string) (v : V) (d : pydict V) :
  k ≠ k' → dict_get k (Papers.dict_set k' v d) = dict_get k d.
Proof.
  intros Hne. induction d as [|[k0 v0] d IH]; cbn [Papers.dict_set dict_get].
  - apply String.eqb_neq in Hne. now rewrite Hne.
  - destruct (String.eqb k' k0) eqn:Hk0; cbn [dict_get].
    + apply String.eqb_eq in Hk0. subst k0.
      apply String.eqb_neq in Hne. now rewrite Hne.
    + destruct (String.eqb k k0); [reflexivity | exact IH].
Qed.

Lemma latest_cons (k : string) (p : Papers.paper) (ps : list Papers.paper) :
  latest k (p :: ps)
  = match latest k ps with
    | Some q => Some q
    | None => if String.eqb k (Papers.short_id p) then Some p else None
    end.
Proof.
  unfold latest. cbn [rev].
  induction (rev ps) as [|q l IH]; cbn [app List.find]; [reflexivity|].
  destruct (String.eqb k (Papers.short_id q)); [reflexivity | exact IH].
Qed.

(** What a dict holds under a key after the entries of some papers went
    in: the entry of the last paper with that identifier, and otherwise what
    it held before. *)
Lemma stored_get (k : string) (ps : list Papers.paper) (d : pydict pyval) :
  dict_get k (stored d ps)
  = match latest k ps with
    | Some p => Some (Papers.paper_info p)
    | None => dict_get k d
    end.
Proof.
  revert d. induction ps as [|p ps IH]; intros d; [reflexivity|].
  unfold stored in *. cbn [fold_left]. rewrite IH, latest_cons.
  destruct (latest k ps) as [q|]; [reflexivity|].
  destruct (String.eqb k (Papers.short_id p)) eqn:Hk.
  - apply String.eqb_eq in Hk. subst k. apply dict_get_set_eq.
  - apply String.eqb_neq in Hk. now apply dict_get_set_ne.
Qed.

Lemma latest_in (k : string) (ps : list Papers.paper) :
  In k (List.map Papers.short_id ps) →
  ∃ p, latest k ps = Some p ∧ Papers.short_id p = k ∧ In p ps.
Proof.
  induction ps as [|q ps IH]; [intros []|]. intros Hin. rewrite latest_cons.
  destruct (in_dec String.string_dec k (List.map Papers.short_id ps)) as [Hk|Hk].
  - destruct (IH Hk) as (p & Hl & Hid & Hp). rewrite Hl.
    exists p. split; [reflexivity|]. split; [exact Hid | now right].
  - destruct Hin as [Hq | Hin]; [|contradiction].
    destruct (latest k ps) as [p|] eqn:Hl.
    + unfold latest in Hl. apply find_some in Hl as [Hp Hkp].
      apply String.eqb_eq in Hkp. exfalso. apply Hk. rewrite Hkp.
      apply in_map. now apply in_rev.
    + cbn [List.map] in Hq. subst k. rewrite String.eqb_refl.
      exists q. split; [reflexivity|]. split; [reflexivity | now left].
Qed.

(** ** [search_papers] *)

Section SearchPapers.
Context {W : Type} (H : Papers.Host W).
Implicit Types (w : W) (g : Papers.fetched W).

Lemma collect_dict g (d : pydict pyval) (ids : list string) :
  Papers.collect g (VDict d) ids
  = match ending g with
    | (w, None) =>
        (w, inr (VDict (stored d (yielded g)),
                 ids ++ List.map Papers.short_id (yielded g)))
    | (w, Some e) => (w, inl e)
    end.
Proof.
  revert d ids. induction g as [w|w e|w p rest IH]; intros d ids;
    cbn [Papers.collect ending yielded Papers.store].
  - now rewrite app_nil_r.
  - reflexivity.
  - rewrite IH. destruct (ending rest) as [w' [e|]]; [reflexivity|].
    cbn [List.map]. now rewrite <- app_assoc.
Qed.

Lemma collect_not_dict w p rest (v : pyval) (ids : list string) :
  (∀ d, v ≠ VDict d) →
  ∃ e, Papers.collect (Papers.Yield w p rest) v ids = (w, inl e)
       ∧ exn_kind e = TypeError.
Proof.
  intros Hv. cbn [Papers.collect].
  destruct v; cbn [Papers.store]; try (eexists; split; reflexivity).
  now destruct (Hv entries).
Qed.

(** The run of [search_papers] up to the end of the iteration. *)
Lemma search_papers_run topic n w w1 w2 r :
  Papers.makedirs H (Papers.topic_dir topic) w = (w1, inr tt) →
  Papers.load_json H (Papers.info_file (Papers.topic_dir topic)) w1 = (w2, r) →
  Papers.search_papers H topic n w
  = match r with
    | Papers.LoadError e =>
        (w2, [Papers.Makedirs (Papers.topic_dir topic);
              Papers.Load (Papers.info_file (Papers.topic_dir topic))], inl e)
    | _ =>
        let v := match r with Papers.Loaded v => v | _ => VDict [] end in
        match Papers.collect (Papers.results H topic n w2) v [] with
        | (w3, inl e) =>
            (w3, [Papers.Makedirs (Papers.topic_dir topic);
                  Papers.Load (Papers.info_file (Papers.topic_dir topic));
                  Papers.Search topic n], inl e)
        | (w3, inr (v', ids)) =>
            match Papers.dump_json H (Papers.info_file (Papers.topic_dir topic))
                    (json_dumps v') w3 with
            | (w4, inl e) =>
                (w4, [Papers.Makedirs (Papers.topic_dir topic);
                      Papers.Load (Papers.info_file (Papers.topic_dir topic));
                      Papers.Search topic n;
                      Papers.Dump (Papers.info_file (Papers.topic_dir topic))
                        (json_dumps v')], inl e)
            | (w4, inr _) =>
                (w4, [Papers.Makedirs (Papers.topic_dir topic);
                      Papers.Load (Papers.info_file (Papers.topic_dir topic));
                      Papers.Search topic n;
                      Papers.Dump (Papers.info_file (Papers.topic_dir topic))
                        (json_dumps v');
                      Papers.Say ("Results are saved in: "
                                  +:+ Papers.info_file (Papers.topic_dir topic))],
                 inr ids)
            end
        end
    end.
Proof.
  intros Hm Hl.
  unfold Papers.search_papers, Papers.topic_dir, Papers.info_file in *.
  unfold mbind, Papers.T_bind, Papers.ask, Papers.load, Papers.say, mret,
    Papers.T_ret, Papers.fail.
  rewrite Hm, Hl.
  destruct r as [v|msg|msg|e]; cbn [app]; try reflexivity;
    (match goal with |- context [Papers.collect ?g ?v ?l] =>
       destruct (Papers.collect g v l) as [w3 [e|[v' ids]]] end;
     [reflexivity|]; cbn [fst snd];
     match goal with |- context [Papers.dump_json ?a ?b ?c ?d] =>
       destruct (Papers.dump_json a b c d) as [w4 [e|[]]] end; reflexivity).
Qed.

(** The run of [search_papers] when nothing fails. *)
Lemma search_papers_success topic n w w1 w2 r d w3 w4 :
  Papers.makedirs H (Papers.topic_dir topic) w = (w1, inr tt) →
  Papers.load_json H (Papers.info_file (Papers.topic_dir topic)) w1 = (w2, r) →
  start_dict r = Some d →
  ending (Papers.results H topic n w2) = (w3, None) →
  Papers.dump_json H (Papers.info_file (Papers.topic_dir topic))
    (json_dumps (VDict (stored d (yielded (Papers.results H topic n w2))))) w3
  = (w4, inr tt) →
  Papers.search_papers H topic n w
  = (w4,
     [Papers.Makedirs (Papers.topic_dir topic);
      Papers.Load (Papers.info_file (Papers.topic_dir topic));
      Papers.Search topic n;
      Papers.Dump (Papers.info_file (Papers.topic_dir topic))
        (json_dumps (VDict (stored d (yielded (Papers.results H topic n w2)))));
      Papers.Say ("Results are saved in: "
                  +:+ Papers.info_file (Papers.topic_dir topic))],
     inr (List.map Papers.short_id (yielded (Papers.results H topic n w2)))).
Proof.
  intros Hm Hl Hd He Hw.
  rewrite (search_papers_run topic n w w1 w2 r Hm Hl).
  assert (Hv : match r with Papers.Loaded v => v | _ => VDict [] end = VDict d).
  { destruct r as [[]| | |]; cbn in Hd; congruence. }
  destruct r as [v|msg|msg|e]; try discriminate Hd; cbn zeta;
    rewrite Hv, collect_dict, He, Hw; reflexivity.
Qed.

End SearchPapers.

Lemma latest_none (k : string) (ps : list Papers.paper) :
  ¬ In k (List.map Papers.short_id ps) → latest k ps = None.
Proof.
  induction ps as [|q ps IH]; [reflexivity|]. cbn [List.map In]. intros Hk.
  rewrite latest_cons, IH by tauto.
  destruct (String.eqb k (Papers.short_id q)) eqn:Hq; [|reflexivity].
  apply String.eqb_eq in Hq. exfalso. apply Hk. now left.
Qed.

Lemma lower_char_idem (c : ascii) :
  PyStr.lower_char (PyStr.lower_char c) = PyStr.lower_char c.
Proof. destruct c as [[] [] [] [] [] [] [] []]; reflexivity. Qed.

Lemma lower_idem (s : string) : PyStr.lower (PyStr.lower s) = PyStr.lower s.
Proof.
  induction s as [|c s IH]; [reflexivity|]. cbn [PyStr.lower].
  now rewrite lower_char_idem, IH.
Qed.

Lemma replace_lower_replace_char (c : ascii) :
  Papers.replace_char (PyStr.lower_char (Papers.replace_char c))
  = Papers.replace_char (PyStr.lower_char c).
Proof. destruct c as [[] [] [] [] [] [] [] []]; reflexivity. Qed.

Lemma replace_lower_replace (s : string) :
  Papers.replace_spaces (PyStr.lower (Papers.replace_spaces s))
  = Papers.replace_spaces (PyStr.lower s).
Proof.
  induction s as [|c s IH]; [reflexivity|].
  cbn [PyStr.lower Papers.replace_spaces].
  now rewrite replace_lower_replace_char, IH.
Qed.

Lemma replace_char_no_space (c : ascii) :
  Ascii.eqb Papers.space (Papers.replace_char c) = false.
Proof. destruct c as [[] [] [] [] [] [] [] []]; reflexivity. Qed.

Lemma replace_spaces_no_space (s : string) :
  PyStr.contains Papers.space (Papers.replace_spaces s) = false.
Proof.
  induction s as [|c s IH]; [reflexivity|].
  cbn [Papers.replace_spaces PyStr.contains].
  now rewrite replace_char_no_space.
Qed.

Section SearchPapersProperties.
Context {W : Type} (H : Papers.Host W).
Implicit Types (w : W).

(** X1: the directory of a topic does not depend on the case of its
    letters nor on whether its words are separated by spaces or by
    underscores, and its name holds no space; it is the first thing
    [search_papers] asks for. *)
Theorem topic_dir_ignores_case_and_spaces (topic : string) (n : Z) w :
  Papers.topic_dir (PyStr.lower topic) = Papers.topic_dir topic
  ∧ Papers.topic_dir (Papers.replace_spaces topic) = Papers.topic_dir topic
  ∧ PyStr.contains Papers.space (Papers.replace_spaces (PyStr.lower topic)) = false
  ∧ ∃ ops, (Papers.search_papers H topic n w).1.2
           = Papers.Makedirs (Papers.topic_dir topic) :: ops.
Proof.
  unfold Papers.topic_dir.
  split; [now rewrite lower_idem|]. split; [now rewrite replace_lower_replace|].
  split; [apply replace_spaces_no_space|].
  destruct (Papers.makedirs H (Papers.topic_dir topic) w) as [w1 [e|[]]] eqn:Hm.
  - unfold Papers.search_papers, mbind, Papers.T_bind, Papers.ask.
    unfold Papers.topic_dir in Hm. rewrite Hm. now eexists.
  - destruct (Papers.load_json H (Papers.info_file (Papers.topic_dir topic)) w1)
      as [w2 r] eqn:Hl.
    rewrite (search_papers_run H topic n w w1 w2 r Hm Hl).
    unfold Papers.topic_dir.
    destruct r as [v|msg|msg|e]; cbn zeta;
      try (match goal with |- context [Papers.collect ?g ?v ?l] =>
             destruct (Papers.collect g v l) as [w3 [e|[v' ids]]] end;
           [|match goal with |- context [Papers.dump_json ?a ?b ?c ?d] =>
               destruct (Papers.dump_json a b c d) as [w4 [e|[]]] end]);
      now eexists.
Qed.

(** X2: when the directory can be made, the file is a dict or cannot be
    read as JSON, arXiv delivers its results and the file can be written,
    [search_papers] returns the identifiers of the results in their order and
    writes one dict as JSON text: under the identifier of every result the
    entry of the last result with that identifier, and under every other key
    what the file held before. *)
Theorem search_papers_stores_results topic n w w1 w2 r d w3 w4 :
  Papers.makedirs H (Papers.topic_dir topic) w = (w1, inr tt) →
  Papers.load_json H (Papers.info_file (Papers.topic_dir topic)) w1 = (w2, r) →
  start_dict r = Some d →
  ending (Papers.results H topic n w2) = (w3, None) →
  Papers.dump_json H (Papers.info_file (Papers.topic_dir topic))
    (json_dumps (VDict (stored d (yielded (Papers.results H topic n w2))))) w3
  = (w4, inr tt) →
  Papers.search_papers H topic n w
  = (w4,
     [Papers.Makedirs (Papers.topic_dir topic);
      Papers.Load (Papers.info_file (Papers.topic_dir topic));
      Papers.Search topic n;
      Papers.Dump (Papers.info_file (Papers.topic_dir topic))
        (json_dumps (VDict (stored d (yielded (Papers.results H topic n w2)))));
      Papers.Say ("Results are saved in: "
                  +:+ Papers.info_file (Papers.topic_dir topic))],
     inr (List.map Papers.short_id (yielded (Papers.results H topic n w2))))
  ∧ (∀ k, In k (List.map Papers.short_id (yielded (Papers.results H topic n w2))) →
       ∃ p, latest k (yielded (Papers.results H topic n w2)) = Some p
            ∧ Papers.short_id p = k
            ∧ dict_get k (stored d (yielded (Papers.results H topic n w2)))
              = Some (Papers.paper_info p))
  ∧ (∀ k, ¬ In k (List.map Papers.short_id (yielded (Papers.results H topic n w2))) →
       dict_get k (stored d (yielded (Papers.results H topic n w2))) = dict_get k d).
Proof.
  intros Hm Hl Hd He Hw.
  split; [|split].
  - exact (search_papers_success H topic n w w1 w2 r d w3 w4 Hm Hl Hd He Hw).
  - intros k Hk. destruct (latest_in k _ Hk) as (p & Hp & Hid & _).
    exists p. rewrite stored_get, Hp. now repeat split.
  - intros k Hk. now rewrite stored_get, (latest_none k _ Hk).
Qed.

(** X3: when the iteration over the results of arXiv ends with an
    exception, [search_papers] ends with it and has not asked to write
    anything: the directory is made, the file is read, and no more.  So it is
    when the file holds JSON that is no dict and there is a result: the first
    assignment raises a [TypeError]. *)
Theorem search_papers_failure_writes_nothing topic n w w1 w2 r :
  Papers.makedirs H (Papers.topic_dir topic) w = (w1, inr tt) →
  Papers.load_json H (Papers.info_file (Papers.topic_dir topic)) w1 = (w2, r) →
  (∀ d w3 e,
     start_dict r = Some d →
     ending (Papers.results H topic n w2) = (w3, Some e) →
     Papers.search_papers H topic n w
     = (w3,
        [Papers.Makedirs (Papers.topic_dir topic);
         Papers.Load (Papers.info_file (Papers.topic_dir topic));
         Papers.Search topic n],
        inl e))
  ∧ (∀ v wy p rest,
     r = Papers.Loaded v → (∀ d, v ≠ VDict d) →
     Papers.results H topic n w2 = Papers.Yield wy p rest →
     ∃ e,
       Papers.search_papers H topic n w
       = (wy,
          [Papers.Makedirs (Papers.topic_dir topic);
           Papers.Load (Papers.info_file (Papers.topic_dir topic));
           Papers.Search topic n],
          inl e)
       ∧ exn_kind e = TypeError).
Proof.
  intros Hm Hl. rewrite (search_papers_run H topic n w w1 w2 r Hm Hl). split.
  - intros d w3 e Hd He.
    assert (Hv : match r with Papers.Loaded v => v | _ => VDict [] end = VDict d).
    { destruct r as [[]| | |]; cbn in Hd; congruence. }
    destruct r as [v|msg|msg|e']; try discriminate Hd; cbn zeta;
      rewrite Hv, collect_dict, He; reflexivity.
  - intros v wy p rest -> Hv Hg. cbn zeta. rewrite Hg.
    destruct (collect_not_dict wy p rest v [] Hv) as (e & Hc & Hk).
    rewrite Hc. now exists e.
Qed.

End SearchPapersProperties.

(** ** [extract_info] *)

Section ExtractInfo.
Context {W : Type} (H : Papers.Host W).
Implicit Types (w : W) (paper_id item : string).

(** Whatever the directory holds, the scan only loads and prints. *)
Lemma scan_read_only paper_id (items : list string) w :
  forallb read_only (Papers.scan H paper_id items w).1.2 = true.
Proof.
  revert w. induction items as [|item rest IH]; intros w; [reflexivity|].
  cbn [Papers.scan]. unfold mbind, Papers.T_bind, Papers.test, Papers.load, Papers.say.
  destruct (Papers.isdir H _ w) as [w1 []]; cbn [app]; [|
    specialize (IH w1); destruct (Papers.scan H paper_id rest w1) as [[w' o'] r'];
    exact IH].
  destruct (Papers.isfile H _ w1) as [w2 []]; cbn [app]; [|
    specialize (IH w2); destruct (Papers.scan H paper_id rest w2) as [[w' o'] r'];
    exact IH].
  destruct (Papers.load_json H _ w2) as [w3 [v|msg|msg|e]]; cbn [app];
    try reflexivity;
    try (specialize (IH w3);
         destruct (Papers.scan H paper_id rest w3) as [[w' o'] r']; exact IH).
  destruct (Papers.lookup_info v paper_id) as [e|[info|]]; try reflexivity.
  specialize (IH w3). destruct (Papers.scan H paper_id rest w3) as [[w' o'] r'].
  exact IH.
Qed.

(** The scan passes over an item that holds nothing for the paper. *)
Lemma scan_skip paper_id item (rest : list string) w :
  item_skipped H paper_id item →
  ∃ w' ops, Papers.scan H paper_id (item :: rest) w
            = after_ops ops (Papers.scan H paper_id rest w').
Proof.
  intros Hskip. cbn [Papers.scan].
  unfold mbind, Papers.T_bind, Papers.test, Papers.load, Papers.say, after_ops.
  fold (item_file item).
  destruct (Papers.isdir H (Papers.path_join Papers.PAPER_DIR item) w)
    as [w1 b1] eqn:Hd.
  destruct b1;
    [|exists w1, []; now destruct (Papers.scan H paper_id rest w1) as [[? ?] ?]].
  destruct (Papers.isfile H (item_file item) w1) as [w2 b2] eqn:Hf.
  destruct b2;
    [|exists w2, []; now destruct (Papers.scan H paper_id rest w2) as [[? ?] ?]].
  destruct Hskip as [Hno | [Hno | Hno]].
  - specialize (Hno w). rewrite Hd in Hno. discriminate Hno.
  - specialize (Hno w1). rewrite Hf in Hno. discriminate Hno.
  - specialize (Hno w2).
    destruct (Papers.load_json H (item_file item) w2) as [w3 [v|msg|msg|e]];
      cbn [snd no_entry] in Hno; [| | |destruct Hno].
    + rewrite Hno. exists w3, [Papers.Load (item_file item)].
      now destruct (Papers.scan H paper_id rest w3) as [[? ?] ?].
    + exists w3, [Papers.Load (item_file item);
                  Papers.Say ("Error reading " +:+ item_file item +:+ ": " +:+ msg)].
      now destruct (Papers.scan H paper_id rest w3) as [[? ?] ?].
    + exists w3, [Papers.Load (item_file item);
                  Papers.Say ("Error reading " +:+ item_file item +:+ ": " +:+ msg)].
      now destruct (Papers.scan H paper_id rest w3) as [[? ?] ?].
Qed.

Lemma scan_not_found paper_id (items : list string) w :
  Forall (item_skipped H paper_id) items →
  (Papers.scan H paper_id items w).2 = inr (Papers.not_found_message paper_id).
Proof.
  intros Hall. revert w. induction Hall as [|item rest Hitem _ IH]; intros w;
    [reflexivity|].
  destruct (scan_skip paper_id item rest w Hitem) as (w' & ops & ->).
  apply IH.
Qed.

Lemma scan_hit paper_id item info (rest : list string) w :
  item_holds H paper_id item info →
  (Papers.scan H paper_id (item :: rest) w).2 = inr (json_dumps info).
Proof.
  intros (Hd & Hf & Hl). cbn [Papers.scan].
  unfold mbind, Papers.T_bind, Papers.test, Papers.load. fold (item_file item).
  specialize (Hd w).
  destruct (Papers.isdir H (Papers.path_join Papers.PAPER_DIR item) w) as [w1 b1].
  cbn [snd] in Hd. subst b1. specialize (Hf w1).
  destruct (Papers.isfile H (item_file item) w1) as [w2 b2].
  cbn [snd] in Hf. subst b2. destruct (Hl w2) as (v & Hv & Hinfo).
  destruct (Papers.load_json H (item_file item) w2) as [w3 r].
  cbn [snd] in Hv. subst r. now rewrite Hinfo.
Qed.

Lemma scan_found paper_id item info (pre post : list string) w :
  Forall (item_skipped H paper_id) pre →
  item_holds H paper_id item info →
  (Papers.scan H paper_id (pre ++ item :: post) w).2 = inr (json_dumps info).
Proof.
  intros Hall Hitem. revert w. induction Hall as [|x pre Hx _ IH]; intros w.
  - now apply scan_hit.
  - cbn [app]. destruct (scan_skip paper_id x (pre ++ item :: post) w Hx)
      as (w' & ops & ->).
    apply IH.
Qed.

Lemma extract_info_run paper_id w w1 (items : list string) :
  Papers.listdir H Papers.PAPER_DIR w = (w1, inr items) →
  Papers.extract_info H paper_id w
  = after_ops [Papers.Listdir Papers.PAPER_DIR] (Papers.scan H paper_id items w1).
Proof.
  intros Hl. unfold Papers.extract_info, mbind, Papers.T_bind, Papers.ask, after_ops.
  rewrite Hl. now destruct (Papers.scan H paper_id items w1) as [[? ?] ?].
Qed.

(** X4: when no listed item holds an entry for the paper (it is no
    directory, or has no file, or the file cannot be read as JSON, or it
    holds a dict, list or string without the identifier), [extract_info]
    returns the sentence that nothing is saved for it. *)
Theorem extract_info_not_found paper_id w w1 (items : list string) :
  Papers.listdir H Papers.PAPER_DIR w = (w1, inr items) →
  Forall (item_skipped H paper_id) items →
  (Papers.extract_info H paper_id w).2
  = inr ("There's no saved information related to paper " +:+ paper_id +:+ ".").
Proof.
  intros Hl Hall. rewrite (extract_info_run paper_id w w1 items Hl).
  unfold after_ops. cbn [snd]. now apply scan_not_found.
Qed.

(** X5: [extract_info] answers from the first listed directory whose file
    holds the paper: the items before it that hold nothing for the paper are
    passed over, the items after it are not looked at, and the answer is the
    entry as indented JSON text. *)
Theorem extract_info_first_hit paper_id w w1 item info (pre post : list string) :
  Papers.listdir H Papers.PAPER_DIR w = (w1, inr (pre ++ item :: post)) →
  Forall (item_skipped H paper_id) pre →
  item_holds H paper_id item info →
  (Papers.extract_info H paper_id w).2 = inr (json_dumps info).
Proof.
  intros Hl Hall Hitem. rewrite (extract_info_run paper_id w w1 _ Hl).
  unfold after_ops. cbn [snd]. now apply scan_found.
Qed.

(** X6: [extract_info] never asks to make a directory, to write a file or
    to search arXiv, whatever the directory holds and however the run ends. *)
Theorem extract_info_is_read_only paper_id w :
  forallb read_only (Papers.extract_info H paper_id w).1.2 = true.
Proof.
  unfold Papers.extract_info, mbind, Papers.T_bind, Papers.ask.
  destruct (Papers.listdir H Papers.PAPER_DIR w) as [w1 [e|items]]; [reflexivity|].
  pose proof (scan_read_only paper_id items w1) as Hs.
  destruct (Papers.scan H paper_id items w1) as [[w' o'] r']. exact Hs.
Qed.

(** The scan passes over an item that holds nothing for the paper with
    operations on that item only, whatever comes after it. *)
Lemma scan_skip_ops paper_id item w :
  item_skipped H paper_id item →
  ∃ w' ops,
    Forall (reads_one_of [item]) ops
    ∧ ∀ rest : list string,
        Papers.scan H paper_id (item :: rest) w
        = after_ops ops (Papers.scan H paper_id rest w').
Proof.
  intros Hskip.
  assert (Hload : reads_one_of [item] (Papers.Load (item_file item)))
    by (exists item; split; [now left | now left]).
  assert (Hsay : ∀ msg, reads_one_of [item]
                          (Papers.Say ("Error reading " +:+ item_file item +:+ ": " +:+ msg)))
    by (intros msg; exists item; split; [now left | right; now exists msg]).
  destruct (Papers.isdir H (Papers.path_join Papers.PAPER_DIR item) w)
    as [w1 b1] eqn:Hd.
  destruct b1.
  2:{ exists w1, []. split; [constructor|]. intros rest. cbn [Papers.scan].
      unfold mbind, Papers.T_bind, Papers.test, after_ops. rewrite Hd.
      now destruct (Papers.scan H paper_id rest w1) as [[? ?] ?]. }
  destruct (Papers.isfile H (item_file item) w1) as [w2 b2] eqn:Hf.
  destruct b2.
  2:{ exists w2, []. split; [constructor|]. intros rest. cbn [Papers.scan].
      unfold mbind, Papers.T_bind, Papers.test, after_ops. fold (item_file item).
      rewrite Hd, Hf.
      now destruct (Papers.scan H paper_id rest w2) as [[? ?] ?]. }
  destruct Hskip as [Hno | [Hno | Hno]].
  - specialize (Hno w). rewrite Hd in Hno. discriminate Hno.
  - specialize (Hno w1). rewrite Hf in Hno. discriminate Hno.
  - specialize (Hno w2).
    destruct (Papers.load_json H (item_file item) w2) as [w3 [v|msg|msg|e]] eqn:Hl;
      cbn [snd no_entry] in Hno; [| | |destruct Hno].
    + exists w3, [Papers.Load (item_file item)].
      split; [repeat constructor; exact Hload|]. intros rest. cbn [Papers.scan].
      unfold mbind, Papers.T_bind, Papers.test, Papers.load, after_ops.
      fold (item_file item). rewrite Hd, Hf, Hl, Hno.
      now destruct (Papers.scan H paper_id rest w3) as [[? ?] ?].
    + exists w3, [Papers.Load (item_file item);
                  Papers.Say ("Error reading " +:+ item_file item +:+ ": " +:+ msg)].
      split; [repeat constructor; [exact Hload | apply Hsay]|].
      intros rest. cbn [Papers.scan].
      unfold mbind, Papers.T_bind, Papers.test, Papers.load, Papers.say, after_ops.
      fold (item_file item). rewrite Hd, Hf, Hl.
      now destruct (Papers.scan H paper_id rest w3) as [[? ?] ?].
    + exists w3, [Papers.Load (item_file item);
                  Papers.Say ("Error reading " +:+ item_file item +:+ ": " +:+ msg)].
      split; [repeat constructor; [exact Hload | apply Hsay]|].
      intros rest. cbn [Papers.scan].
      unfold mbind, Papers.T_bind, Papers.test, Papers.load, Papers.say, after_ops.
      fold (item_file item). rewrite Hd, Hf, Hl.
      now destruct (Papers.scan H paper_id rest w3) as [[? ?] ?].
Qed.

Lemma reads_one_of_mono (items items' : list string) (o : Papers.op) :
  (∀ x, In x items → In x items') → reads_one_of items o → reads_one_of items' o.
Proof. intros Hsub (x & Hx & Ho). exists x. split; [now apply Hsub | exact Ho]. Qed.

(** X7: a file that holds JSON which is no dict ends the lookup with a
    [TypeError] as soon as it is reached, when it is [null], a boolean or
    an integer, a list with the identifier among its items, or a string with
    the identifier inside.  The load of that file is the last operation of
    the run; the operations before it are the listing and those on the items
    passed over; and the run is the same whatever is listed after that item:
    the directories after it are not looked at. *)
Theorem extract_info_stops_at_bad_file paper_id w w1 item v (pre post : list string) :
  Papers.listdir H Papers.PAPER_DIR w = (w1, inr (pre ++ item :: post)) →
  Forall (item_skipped H paper_id) pre →
  (∀ w', (Papers.isdir H (Papers.path_join Papers.PAPER_DIR item) w').2 = true) →
  (∀ w', (Papers.isfile H (item_file item) w').2 = true) →
  (∀ w', (Papers.load_json H (item_file item) w').2 = Papers.Loaded v) →
  match v with
  | VNone | VBool _ | VInt _ => True
  | VList items => In (VStr paper_id) items
  | VStr s => Papers.is_substring paper_id s = true
  | VDict _ => False
  end →
  ∃ e w2 ops,
    exn_kind e = TypeError
    ∧ Papers.extract_info H paper_id w
      = (w2,
         Papers.Listdir Papers.PAPER_DIR :: ops ++ [Papers.Load (item_file item)],
         inl e)
    ∧ Forall (reads_one_of pre) ops
    ∧ ∀ post' : list string,
        Papers.scan H paper_id (pre ++ item :: post') w1
        = (w2, ops ++ [Papers.Load (item_file item)], inl e).
Proof.
  intros Hl Hall Hd Hf Hv Hshape.
  assert (Hbad : ∃ e, Papers.lookup_info v paper_id = inl e ∧ exn_kind e = TypeError).
  { destruct v as [|b|n|s|items|entries]; cbn [Papers.lookup_info];
      try (eexists; split; reflexivity); [| |destruct Hshape].
    - rewrite Hshape. eexists; split; reflexivity.
    - assert (Hex : existsb (Papers.equals_str paper_id) items = true).
      { apply existsb_exists. exists (VStr paper_id). split; [exact Hshape|].
        apply String.eqb_refl. }
      rewrite Hex. eexists; split; reflexivity. }
  destruct Hbad as (e & He & Hk).
  assert (Hscan : ∀ w0, ∃ w2 ops,
             Forall (reads_one_of pre) ops
             ∧ ∀ post' : list string,
                 Papers.scan H paper_id (pre ++ item :: post') w0
                 = (w2, ops ++ [Papers.Load (item_file item)], inl e)).
  { clear Hl. induction Hall as [|x pre Hx _ IH]; intros w0.
    - specialize (Hd w0).
      destruct (Papers.isdir H (Papers.path_join Papers.PAPER_DIR item) w0)
        as [wa b1] eqn:Hda.
      cbn [snd] in Hd. subst b1. specialize (Hf wa).
      destruct (Papers.isfile H (item_file item) wa) as [wb b2] eqn:Hfa.
      cbn [snd] in Hf. subst b2. specialize (Hv wb).
      destruct (Papers.load_json H (item_file item) wb) as [wc r] eqn:Hla.
      cbn [snd] in Hv. subst r.
      exists wc, []. split; [constructor|]. intros post'.
      cbn [app Papers.scan].
      unfold mbind, Papers.T_bind, Papers.test, Papers.load. fold (item_file item).
      now rewrite Hda, Hfa, Hla, He.
    - destruct (scan_skip_ops paper_id x w0 Hx) as (w' & ops & Hops & Hskip).
      destruct (IH w') as (w2 & ops' & Hops' & Hrest).
      exists w2, (ops ++ ops'). split.
      + apply Forall_app. split.
        * eapply Forall_impl; [exact Hops|]. intros o.
          apply reads_one_of_mono. intros y [-> | []]. now left.
        * eapply Forall_impl; [exact Hops'|]. intros o.
          apply reads_one_of_mono. intros y Hy. now right.
      + intros post'. cbn [app]. rewrite Hskip, Hrest. unfold after_ops.
        cbn [fst snd]. now rewrite app_assoc. }
  destruct (Hscan w1) as (w2 & ops & Hops & Hrun).
  exists e, w2, ops. split; [exact Hk|]. split; [|split; [exact Hops | exact Hrun]].
  rewrite (extract_info_run paper_id w w1 _ Hl), Hrun. reflexivity.
Qed.

End ExtractInfo.

(** ** JSON text is never empty *)

Lemma pretty_N_go_nonempty (x : N) (s : string) :
  s ≠ "" → pretty_N_go x s ≠ "".
Proof.
  revert s. induction (N.lt_wf_0 x) as [x _ IH]; intros s Hs.
  destruct (decide (x = 0)%N) as [->|Hx]; [now rewrite pretty_N_go_0|].
  rewrite pretty_N_go_step by lia. apply IH; [apply N.div_lt; lia | discriminate].
Qed.

Lemma pretty_Z_nonempty (n : Z) : pretty n ≠ "".
Proof.
  destruct n as [|p|p]; unfold pretty, pretty_Z; [discriminate| |].
  - unfold pretty, pretty_positive, pretty, pretty_N.
    destruct (decide (N.pos p = 0)%N); [discriminate|].
    rewrite pretty_N_go_step by lia. apply pretty_N_go_nonempty. discriminate.
  - rewrite append_cons. discriminate.
Qed.

Lemma json_encode_nonempty (level : nat) (v : pyval) : json_encode level v ≠ "".
Proof.
  destruct v as [|[]|n|s|[|x items]|[|x entries]]; cbn [json_encode];
    try discriminate; try (rewrite append_cons; discriminate).
  apply pretty_Z_nonempty.
Qed.

Section ToolsInTheLoop.
Context {W : Type} (H H' : Papers.Host W) (E : Env W).
Implicit Types (w : W) (s : state W).

Lemma scan_text_nonempty paper_id (items : list string) w (text : string) :
  (Papers.scan H paper_id items w).2 = inr text → text ≠ "".
Proof.
  revert w. induction items as [|item rest IH]; intros w.
  - cbn. intros Heq. injection Heq as <-. unfold Papers.not_found_message.
    rewrite append_cons. discriminate.
  - cbn [Papers.scan].
    unfold mbind, Papers.T_bind, Papers.test, Papers.load, Papers.say.
    destruct (Papers.isdir H _ w) as [w1 []];
      [|specialize (IH w1);
        destruct (Papers.scan H paper_id rest w1) as [[? ?] ?]; exact IH].
    destruct (Papers.isfile H _ w1) as [w2 []];
      [|specialize (IH w2);
        destruct (Papers.scan H paper_id rest w2) as [[? ?] ?]; exact IH].
    destruct (Papers.load_json H _ w2) as [w3 [v|msg|msg|e]];
      try (specialize (IH w3);
           destruct (Papers.scan H paper_id rest w3) as [[? ?] ?]; exact IH);
      [|discriminate].
    destruct (Papers.lookup_info v paper_id) as [e|[info|]]; [discriminate| |].
    + cbn. intros Heq. injection Heq as <-. apply json_encode_nonempty.
    + specialize (IH w3).
      destruct (Papers.scan H paper_id rest w3) as [[? ?] ?]. exact IH.
Qed.

Lemma extract_info_text_nonempty paper_id w (text : string) :
  (Papers.extract_info H paper_id w).2 = inr text → text ≠ "".
Proof.
  unfold Papers.extract_info, mbind, Papers.T_bind, Papers.ask.
  destruct (Papers.listdir H Papers.PAPER_DIR w) as [w1 [e|items]]; [discriminate|].
  pose proof (scan_text_nonempty paper_id items w1 text) as Hs.
  destruct (Papers.scan H paper_id items w1) as [[w' o'] r']. exact Hs.
Qed.

(** X8: what [search_papers] writes, [extract_info] finds.  After a search
    that succeeded, in a directory whose listing holds the directory of the
    topic and where that file holds the dict that was written, the lookup of
    a paper the search returned gives the entry of the last result with its
    identifier, as indented JSON text, provided no directory listed before
    holds the paper. *)
Theorem extract_info_after_search_papers topic n w w1 w2 r d w3 w4 p
    w' w1' (pre post : list string) :
  Papers.makedirs H (Papers.topic_dir topic) w = (w1, inr tt) →
  Papers.load_json H (Papers.info_file (Papers.topic_dir topic)) w1 = (w2, r) →
  start_dict r = Some d →
  ending (Papers.results H topic n w2) = (w3, None) →
  Papers.dump_json H (Papers.info_file (Papers.topic_dir topic))
    (json_dumps (VDict (stored d (yielded (Papers.results H topic n w2))))) w3
  = (w4, inr tt) →
  In p (yielded (Papers.results H topic n w2)) →
  Papers.listdir H' Papers.PAPER_DIR w'
  = (w1', inr (pre ++ Papers.replace_spaces (PyStr.lower topic) :: post)) →
  Forall (item_skipped H' (Papers.short_id p)) pre →
  (∀ x, (Papers.isdir H' (Papers.topic_dir topic) x).2 = true) →
  (∀ x, (Papers.isfile H' (Papers.info_file (Papers.topic_dir topic)) x).2 = true) →
  (∀ x, (Papers.load_json H' (Papers.info_file (Papers.topic_dir topic)) x).2
        = Papers.Loaded (VDict (stored d (yielded (Papers.results H topic n w2))))) →
  In (Papers.Dump (Papers.info_file (Papers.topic_dir topic))
        (json_dumps (VDict (stored d (yielded (Papers.results H topic n w2))))))
     (Papers.search_papers H topic n w).1.2
  ∧ (Papers.search_papers H topic n w).2
    = inr (List.map Papers.short_id (yielded (Papers.results H topic n w2)))
  ∧ ∃ q, latest (Papers.short_id p) (yielded (Papers.results H topic n w2)) = Some q
         ∧ (Papers.extract_info H' (Papers.short_id p) w').2
           = inr (json_dumps (Papers.paper_info q)).
Proof.
  intros Hm Hl Hd He Hw Hp Hlist Hpre Hisdir Hisfile Hload.
  rewrite (search_papers_success H topic n w w1 w2 r d w3 w4 Hm Hl Hd He Hw).
  split; [cbn; tauto|]. split; [reflexivity|].
  destruct (latest_in (Papers.short_id p) (yielded (Papers.results H topic n w2)))
    as (q & Hq & _ & _); [now apply in_map|].
  exists q. split; [exact Hq|].
  rewrite (extract_info_run H' (Papers.short_id p) w' w1' _ Hlist).
  unfold after_ops. cbn [snd]. apply scan_found; [exact Hpre|].
  split; [exact Hisdir|]. split; [exact Hisfile|].
  intros x. eexists. split; [apply Hload|].
  cbn [Papers.lookup_info]. now rewrite stored_get, Hq.
Qed.

(** X9: a failure of the search at startup ends [main] before the loop:
    when the iteration over the results for ["computers"] ends with an
    exception, of whatever class, [main] ends with it, has printed nothing,
    has read no line and has not asked the model service anything. *)
Theorem main_startup_failure_is_fatal fuel s w1 w2 r d w3 e :
  Papers.makedirs H (Papers.topic_dir "computers") (world s) = (w1, inr tt) →
  Papers.load_json H (Papers.info_file (Papers.topic_dir "computers")) w1 = (w2, r) →
  start_dict r = Some d →
  ending (Papers.results H "computers" 5 w2) = (w3, Some e) →
  Papers.main H E fuel s = (State w3 (stdin s), [], Raise e).
Proof.
  intros Hm Hl Hd He.
  assert (Hrun : Papers.search_papers H "computers" 5 (world s)
                 = (w3,
                    [Papers.Makedirs (Papers.topic_dir "computers");
                     Papers.Load (Papers.info_file (Papers.topic_dir "computers"));
                     Papers.Search "computers" 5],
                    inl e)).
  { rewrite (search_papers_run H "computers" 5 (world s) w1 w2 r Hm Hl).
    assert (Hv : match r with Papers.Loaded v => v | _ => VDict [] end = VDict d).
    { destruct r as [[]| | |]; cbn in Hd; congruence. }
    destruct r as [v|msg|msg|e']; try discriminate Hd; cbn zeta;
      rewrite Hv, collect_dict, He; reflexivity. }
  unfold Papers.main, mbind, M_bind, Papers.lift. now rewrite Hrun.
Qed.

(** X10: a search without results shows no result.  When the model asks
    for [search_papers], the tool runs as [search_papers] does on some topic,
    and arXiv has nothing, the pass prints where the results are saved and
    then neither the line [Result:] nor the empty list. *)
Theorem search_without_hits_shows_nothing w line rest w1 args topic n wa wb r wc wd :
  is_quit line = false →
  generate_content E [Tool Chatbot.TOOLS] (PyStr.strip line) w
  = (w1, inr (FunctionCall "search_papers" args)) →
  search_papers E args w1
  = Papers.as_tool Papers.str_list (Papers.search_papers H topic n) w1 →
  Papers.makedirs H (Papers.topic_dir topic) w1 = (wa, inr tt) →
  Papers.load_json H (Papers.info_file (Papers.topic_dir topic)) wa = (wb, r) →
  (∀ e, r ≠ Papers.LoadError e) →
  Papers.results H topic n wb = Papers.Stop wc →
  Papers.dump_json H (Papers.info_file (Papers.topic_dir topic))
    (json_dumps (loaded_value r)) wc = (wd, inr tt) →
  Chatbot.chat_turn E (State w (line :: rest))
  = (State wd rest,
     [query_prompt; Generate (PyStr.strip line);
      Print "Function to call: search_papers";
      Print ("Arguments: " +:+ py_str (VDict args));
      Print ("Results are saved in: " +:+ Papers.info_file (Papers.topic_dir topic))],
     Ret Continue).
Proof.
  intros Hq Hg Htool Hm Hl Hr Hres Hw.
  assert (Hrun : Papers.search_papers H topic n w1
                 = (wd,
                    [Papers.Makedirs (Papers.topic_dir topic);
                     Papers.Load (Papers.info_file (Papers.topic_dir topic));
                     Papers.Search topic n;
                     Papers.Dump (Papers.info_file (Papers.topic_dir topic))
                       (json_dumps (loaded_value r));
                     Papers.Say ("Results are saved in: "
                                 +:+ Papers.info_file (Papers.topic_dir topic))],
                    inr [])).
  { rewrite (search_papers_run H topic n w1 wa wb r Hm Hl), Hres.
    destruct r as [v|msg|msg|e]; [| | |now destruct (Hr e)];
      cbn [Papers.collect loaded_value] in *; cbn zeta; rewrite Hw; reflexivity. }
  unfold Papers.as_tool in Htool. rewrite Hrun in Htool. cbn [Papers.said] in Htool.
  pose proof (chatbot_query_search_papers E (PyStr.strip line) (State w rest)
                w1 args wd _ _ Hg Htool) as Hpq.
  rewrite (chatbot_turn_query E w line rest _ _ _ Hq Hpq).
  reflexivity.
Qed.

(** X11: the answer of [extract_info] is always shown.  Whatever the
    directory holds, the text [extract_info] returns is not empty, so a pass
    in which the model asks for the tool prints what the tool printed, then
    the line [Result:] and the text. *)
Theorem extract_info_answer_is_shown w line rest w1 args paper_id w2 ops text :
  is_quit line = false →
  generate_content E [Tool Chatbot.TOOLS] (PyStr.strip line) w
  = (w1, inr (FunctionCall "extract_info" args)) →
  extract_info E args w1
  = Papers.as_tool VStr (Papers.extract_info H paper_id) w1 →
  Papers.extract_info H paper_id w1 = (w2, ops, inr text) →
  text ≠ ""
  ∧ Chatbot.chat_turn E (State w (line :: rest))
    = (State w2 rest,
       query_prompt
         :: (Generate (PyStr.strip line) :: call_banner "extract_info" args
               ++ List.map Print (Papers.said ops))
         ++ [Print "Result:"; Print text],
       Ret Continue).
Proof.
  intros Hq Hg Htool Hrun.
  assert (Hne : text ≠ "").
  { apply (extract_info_text_nonempty paper_id w1). now rewrite Hrun. }
  split; [exact Hne|].
  unfold Papers.as_tool in Htool. rewrite Hrun in Htool.
  pose proof (chatbot_query_extract_info E (PyStr.strip line) (State w rest)
                w1 args w2 _ _ Hg Htool) as Hpq.
  rewrite (chatbot_turn_query E w line rest _ _ _ Hq Hpq).
  cbn [of_sum]. unfold shown. cbn [truthy py_str].
  apply String.eqb_neq in Hne. now rewrite Hne.
Qed.

End ToolsInTheLoop.

(** ** The loops at the end of the input and up to a quit *)

Section Requests.
Context {W : Type}.

Lemma requests_app (t u : list event) : requests (t ++ u) = requests t + requests u.
Proof. unfold requests. now rewrite List.filter_app, length_app. Qed.

Lemma requests_prints (lines : list string) : requests (List.map Print lines) = 0.
Proof. induction lines as [|l lines IH]; [reflexivity | exact IH]. Qed.

Lemma calm_ret {A} (a : A) : calm (W:=W) (mret a).
Proof. intros s. reflexivity. Qed.

Lemma calm_raise {A} (e : exn) : calm (W:=W) (A:=A) (raise e).
Proof. intros s. reflexivity. Qed.

Lemma calm_print (text : string) : calm (W:=W) (print text).
Proof. intros s. reflexivity. Qed.

Lemma calm_ext {A} (f : W → W * (exn + A)) : calm (ext f).
Proof. intros s. unfold ext. now destruct (f (world s)) as [w [e|a]]. Qed.

Lemma calm_call (f : tool_function W) (kwargs : pydict pyval) : calm (call f kwargs).
Proof.
  intros s. unfold call.
  destruct (f kwargs (world s)) as [[w lines] [e|v]]; apply requests_prints.
Qed.

Lemma calm_bind {A B} (c : M W A) (k : A → M W B) :
  calm c → (∀ a, calm (k a)) → calm (c ≫= k).
Proof.
  intros Hc Hk s. unfold mbind, M_bind. specialize (Hc s).
  destruct (c s) as [[s1 t1] [a|e|]]; cbn [fst snd] in *; try exact Hc.
  specialize (Hk a s1). destruct (k a s1) as [[s2 t2] r]; cbn [fst snd] in *.
  now rewrite requests_app, Hc, Hk.
Qed.

Lemma requests_after_generate {A} (E : Env W) tools query (k : response → M W A) s :
  (∀ r, calm (k r)) →
  requests ((generate E tools query ≫= k) s).1.2 = 1.
Proof.
  intros Hk. unfold generate, mbind, M_bind, emit, ext.
  destruct (generate_content E tools query (world s)) as [w [e|r]]; [reflexivity|].
  cbn [app]. specialize (Hk r (State w (stdin s))).
  destruct (k r (State w (stdin s))) as [[s2 t2] r2]; cbn [fst snd] in *.
  change (Generate query :: t2) with ([Generate query] ++ t2).
  now rewrite requests_app, Hk.
Qed.

End Requests.

Section LoopsToQuit.
Context {W : Type} (E : Env W).
Implicit Types (s : state W) (w : W) (tools : list tool).

Lemma chatbot_query_one_request query s :
  requests (Chatbot.process_query E query s).1.2 = 1.
Proof.
  unfold Chatbot.process_query. apply requests_after_generate.
  intros [fname args|text].
  - repeat (apply calm_bind; [apply calm_print | intros _]).
    destruct (String.eqb fname "search_papers"); [apply calm_call|].
    destruct (String.eqb fname "extract_info"); [apply calm_call | apply calm_raise].
  - repeat (apply calm_bind; [apply calm_print | intros _]). apply calm_ret.
Qed.

Lemma client_query_one_request tools query s :
  requests (Client.process_query E tools query s).1.2 = 1.
Proof.
  unfold Client.process_query. apply requests_after_generate.
  intros [fname args|text].
  - repeat (apply calm_bind; [apply calm_print | intros _]).
    apply calm_bind; [apply calm_bind; [intros ?; reflexivity | intros _; apply calm_ext]|].
    intros result. apply calm_bind; [apply calm_print | intros _].
    apply calm_bind;
      [unfold Client.first_text; destruct (content result);
       [apply calm_raise | apply calm_ret]|].
    intros text. apply calm_bind; [apply calm_print | intros _]. apply calm_ret.
  - repeat (apply calm_bind; [apply calm_print | intros _]). apply calm_ret.
Qed.

Lemma chatbot_pass_on_line : pass_on_line (Chatbot.chat_turn E).
Proof.
  intros w line rest. destruct (is_quit line) eqn:Hq.
  - rewrite (chatbot_turn_quit E _ _ _ Hq). now eexists _, _, _.
  - destruct (chatbot_process_query_tame E (PyStr.strip line) (State w rest))
      as (Hin & Hout & _).
    pose proof (chatbot_query_one_request (PyStr.strip line) (State w rest)) as Hreq.
    destruct (Chatbot.process_query E (PyStr.strip line) (State w rest))
      as [[s1 t1] r] eqn:Hpq.
    rewrite (chatbot_turn_query E _ _ _ _ _ _ Hq Hpq). cbn [fst snd] in *.
    destruct r as [v|e|]; [| |congruence].
    + eexists _, _, _. split; [reflexivity|]. split; [exact Hin|].
      split; [|now left].
      change (query_prompt :: t1 ++ shown v) with ([query_prompt] ++ t1 ++ shown v).
      rewrite !requests_app, Hreq. unfold shown. now destruct (truthy v).
    + destruct (is_Exception e).
      * eexists _, _, _. split; [reflexivity|]. split; [exact Hin|].
        split; [|now left].
        change (query_prompt :: t1 ++ [chatbot_error e])
          with ([query_prompt] ++ t1 ++ [chatbot_error e]).
        now rewrite !requests_app, Hreq.
      * eexists _, _, _. split; [reflexivity|]. split; [exact Hin|].
        split; [|right; now exists e].
        change (query_prompt :: t1) with ([query_prompt] ++ t1).
        now rewrite requests_app, Hreq.
Qed.

Lemma client_pass_on_line tools : pass_on_line (Client.chat_turn E tools).
Proof.
  intros w line rest. destruct (is_quit line) eqn:Hq.
  - rewrite (client_turn_quit E _ _ _ _ Hq). now eexists _, _, _.
  - destruct (client_process_query_tame E tools (PyStr.strip line) (State w rest))
      as (Hin & Hout & _).
    pose proof (client_query_one_request tools (PyStr.strip line) (State w rest)) as Hreq.
    destruct (Client.process_query E tools (PyStr.strip line) (State w rest))
      as [[s1 t1] r] eqn:Hpq.
    rewrite (client_turn_query E _ _ _ _ _ _ _ Hq Hpq). cbn [fst snd] in *.
    destruct r as [v|e|]; [| |congruence].
    + eexists _, _, _. split; [reflexivity|]. split; [exact Hin|].
      split; [|now left].
      change (query_prompt :: t1 ++ [Print (PyStr.chr PyStr.LF)])
        with ([query_prompt] ++ t1 ++ [Print (PyStr.chr PyStr.LF)]).
      now rewrite !requests_app, Hreq.
    + destruct (is_Exception e).
      * eexists _, _, _. split; [reflexivity|]. split; [exact Hin|].
        split; [|now left].
        change (query_prompt :: t1 ++ [client_error e])
          with ([query_prompt] ++ t1 ++ [client_error e]).
        now rewrite !requests_app, Hreq.
      * eexists _, _, _. split; [reflexivity|]. split; [exact Hin|].
        split; [|right; now exists e].
        change (query_prompt :: t1) with ([query_prompt] ++ t1).
        now rewrite requests_app, Hreq.
Qed.

(** A loop over such passes that ends by a quit has read the input up to
    the quit line, and has asked the model service once for each line before
    it. *)
Lemma loop_reads_to_quit (turn : M W flow) (loop : nat → M W unit) :
  (∀ s, loop 0 s = (s, [], Hang)) →
  (∀ n s, loop (S n) s
          = (turn ≫= λ next, match next with
                             | Break => mret tt
                             | Continue => loop n
                             end) s) →
  pass_on_line turn →
  ∀ n fuel s,
    quit_after n (stdin s) = true →
    outcome_of (loop fuel s) = Ret tt →
    stdin (loop fuel s).1.1 = drop (S n) (stdin s)
    ∧ requests (trace_of (loop fuel s)) = n.
Proof.
  intros H0 HS Hturn. induction n as [|n IH]; intros fuel [w lines] Hquit Hout;
    (destruct fuel as [|fuel]; [rewrite H0 in Hout; discriminate Hout|]);
    (destruct lines as [|line rest]; [discriminate Hquit|]);
    cbn [stdin quit_after] in Hquit; rewrite HS in *;
    unfold mbind, M_bind, outcome_of, trace_of in *;
    destruct (Hturn w line rest) as (s1 & t1 & r & Ht & Hin & Hr); rewrite Ht in *.
  - rewrite Hquit in Hr. destruct Hr as [-> Hreq]. unfold mret, M_ret.
    cbn [fst snd stdin drop]. now rewrite app_nil_r, drop_0.
  - apply andb_prop in Hquit as [Hline Hrest]. apply negb_true_iff in Hline.
    rewrite Hline in Hr. destruct Hr as [Hreq [-> | [e ->]]];
      [|discriminate Hout].
    specialize (IH fuel s1). rewrite Hin in IH. specialize (IH Hrest).
    destruct (loop fuel s1) as [[s2 t2] r2]. cbn [fst snd stdin drop] in *.
    destruct (IH Hout) as [Hs Hn]. split; [exact Hs|].
    now rewrite requests_app, Hreq, Hn.
Qed.

(** X12: one dispatch per query, and nothing read after the quit.  When
    either loop ends by a quit line that comes after [n] other lines, it has
    called [process_query] exactly [n] times, once for each of those lines
    and never for the quit line; a call asks the model service once, unless
    it fails before the request is sent, so the service has been asked at
    most [n] times.  The lines after the quit are still unread. *)
Theorem one_dispatch_per_query tools n fuel s :
  quit_after n (stdin s) = true →
  (outcome_of (Chatbot.chat_while E fuel s) = Ret tt →
     stdin (Chatbot.chat_while E fuel s).1.1 = drop (S n) (stdin s)
     ∧ requests (trace_of (Chatbot.chat_while E fuel s)) = n)
  ∧ (outcome_of (Client.chat_while E tools fuel s) = Ret tt →
     stdin (Client.chat_while E tools fuel s).1.1 = drop (S n) (stdin s)
     ∧ requests (trace_of (Client.chat_while E tools fuel s)) = n).
Proof.
  intros Hquit. split; intros Hout.
  - now apply (loop_reads_to_quit (Chatbot.chat_turn E) (Chatbot.chat_while E));
      [reflexivity | reflexivity | apply chatbot_pass_on_line | |].
  - now apply (loop_reads_to_quit (Client.chat_turn E tools) (Client.chat_while E tools));
      [reflexivity | reflexivity | apply client_pass_on_line | |].
Qed.

Lemma chatbot_while_eof fuel w :
  Chatbot.chat_while E fuel (State w [])
  = (State w [],
     List.concat (List.repeat [query_prompt; chatbot_error end_of_input] fuel),
     Hang).
Proof.
  induction fuel as [|n IH]; [reflexivity|].
  rewrite (chatbot_while_continue E _ _ _ _ (chatbot_turn_eof E w)), IH.
  reflexivity.
Qed.

Lemma client_while_eof tools fuel w :
  Client.chat_while E tools fuel (State w [])
  = (State w [],
     List.concat (List.repeat [query_prompt; client_error end_of_input] fuel),
     Hang).
Proof.
  induction fuel as [|n IH]; [reflexivity|].
  rewrite (client_while_continue E _ _ _ _ _ (client_turn_eof E tools w)), IH.
  reflexivity.
Qed.

(** X13: at the end of the input neither loop ends.  After its banner it
    prompts, prints the error line of the [EOFError] and starts over, pass
    after pass and without a request to the model service; however many
    passes are allowed, the loop is still running. *)
Theorem loops_never_end_at_end_of_input tools fuel w :
  Chatbot.chat_loop E fuel (State w [])
  = (State w [],
     Print "Type your queries or 'quit' to exit."
       :: List.concat (List.repeat [query_prompt; chatbot_error end_of_input] fuel),
     Hang)
  ∧ Client.chat_loop E tools fuel (State w [])
    = (State w [],
       Print (String PyStr.LF "MCP Chatbot Started!")
         :: Print "Type your queries or 'quit' to exit."
         :: List.concat (List.repeat [query_prompt; client_error end_of_input] fuel),
       Hang)
  ∧ requests (trace_of (Chatbot.chat_loop E fuel (State w []))) = 0
  ∧ requests (trace_of (Client.chat_loop E tools fuel (State w []))) = 0.
Proof.
  assert (Hnone : ∀ ev, (ev = chatbot_error end_of_input ∨ ev = client_error end_of_input) →
                        ∀ k, requests (List.concat (List.repeat [query_prompt; ev] k)) = 0).
  { intros ev Hev k. induction k as [|k IH]; [reflexivity|].
    cbn [List.repeat List.concat]. rewrite requests_app, IH.
    destruct Hev as [-> | ->]; reflexivity. }
  assert (H1 : Chatbot.chat_loop E fuel (State w [])
               = (State w [],
                  Print "Type your queries or 'quit' to exit."
                    :: List.concat
                         (List.repeat [query_prompt; chatbot_error end_of_input] fuel),
                  Hang)).
  { unfold Chatbot.chat_loop, mbind, M_bind, print, emit.
    now rewrite chatbot_while_eof. }
  assert (H2 : Client.chat_loop E tools fuel (State w [])
               = (State w [],
                  Print (String PyStr.LF "MCP Chatbot Started!")
                    :: Print "Type your queries or 'quit' to exit."
                    :: List.concat
                         (List.repeat [query_prompt; client_error end_of_input] fuel),
                  Hang)).
  { unfold Client.chat_loop, mbind, M_bind, print, emit.
    now rewrite client_while_eof. }
  split; [exact H1|]. split; [exact H2|]. rewrite H1, H2. unfold trace_of. cbn [fst snd].
  split.
  - change (requests ([Print "Type your queries or 'quit' to exit."]
                      ++ List.concat (List.repeat [query_prompt; chatbot_error end_of_input] fuel)) = 0).
    rewrite requests_app, Hnone; [reflexivity | now left].
  - change (requests ([Print (String PyStr.LF "MCP Chatbot Started!");
                       Print "Type your queries or 'quit' to exit."]
                      ++ List.concat (List.repeat [query_prompt; client_error end_of_input] fuel)) = 0).
    rewrite requests_app, Hnone; [reflexivity | now right].
Qed.

(** X14: an answer of the tool-host without any content part.  The pass
    prints the call and the line [Result:], then the [IndexError] of
    [result.content[0]] is caught by the loop: its message is printed as an
    error line and the loop goes on. *)
Theorem tool_answer_without_content_is_reported tools w line rest w1 fname args w2 result :
  is_quit line = false →
  generate_content E tools (PyStr.strip line) w = (w1, inr (FunctionCall fname args)) →
  call_tool E fname args w1 = (w2, inr result) →
  content result = [] →
  Client.chat_turn E tools (State w (line :: rest))
  = (State w2 rest,
     [query_prompt; Generate (PyStr.strip line);
      Print ("Function to call: " +:+ fname);
      Print ("Arguments: " +:+ py_str (VDict args));
      CallTool fname args; Print "Result:";
      Print (String PyStr.LF "Error: list index out of range")],
     Ret Continue).
Proof.
  intros Hq Hg Hc Hparts.
  assert (Hpq : Client.process_query E tools (PyStr.strip line) (State w rest)
                = (State w2 rest,
                   [Generate (PyStr.strip line);
                    Print ("Function to call: " +:+ fname);
                    Print ("Arguments: " +:+ py_str (VDict args));
                    CallTool fname args; Print "Result:"],
                   Raise (Exn IndexError "list index out of range"))).
  { unfold Client.process_query, Client.first_text, generate, mbind, M_bind, emit, ext.
    cbn [world stdin]. rewrite Hg. cbn [print emit app world stdin].
    now rewrite Hc, Hparts. }
  rewrite (client_turn_query E tools w line rest _ _ _ Hq Hpq). reflexivity.
Qed.

End LoopsToQuit.

(** ** Quit lines *)

Lemma lower_char_is (c : ascii) (l u : ascii) :
  (l = "q" ∧ u = "Q" ∨ l = "u" ∧ u = "U" ∨ l = "i" ∧ u = "I" ∨ l = "t" ∧ u = "T")%char →
  PyStr.lower_char c = l → c = l ∨ c = u.
Proof.
  intros Hlu Hc.
  destruct Hlu as [[-> ->] | [[-> ->] | [[-> ->] | [-> ->]]]];
    destruct c as [[] [] [] [] [] [] [] []];
    vm_compute in Hc; first [discriminate Hc | now left | now right].
Qed.

(** X15: the lines that quit are exactly those which, trimmed, are one of
    the sixteen spellings of [quit] in upper and lower case. *)
Theorem quit_lines_are_the_case_variants (line : string) :
  is_quit line = true
  ↔ ∃ a b c d,
      PyStr.strip line = String a (String b (String c (String d "")))
      ∧ (a = "q" ∨ a = "Q")%char ∧ (b = "u" ∨ b = "U")%char
      ∧ (c = "i" ∨ c = "I")%char ∧ (d = "t" ∨ d = "T")%char.
Proof.
  unfold is_quit. rewrite String.eqb_eq. split.
  - intros Hl.
    destruct (PyStr.strip line) as [|a [|b [|c [|d [|x y]]]]];
      cbn [PyStr.lower] in Hl; try discriminate Hl.
    injection Hl as Ha Hb Hc Hd. exists a, b, c, d. split; [reflexivity|].
    repeat split; (eapply lower_char_is; [|eassumption]); tauto.
  - intros (a & b & c & d & -> & Ha & Hb & Hc & Hd).
    destruct Ha as [-> | ->], Hb as [-> | ->], Hc as [-> | ->], Hd as [-> | ->];
      reflexivity.
Qed.

Lemma lstrip_blank (s : string) : blank s = true → PyStr.lstrip s = "".
Proof.
  induction s as [|c s IH]; [reflexivity|]. cbn [blank PyStr.lstrip].
  intros Hb. apply andb_prop in Hb as [Hc Hs]. rewrite Hc. now apply IH.
Qed.

Lemma rstrip_blank (s : string) : blank s = true → PyStr.rstrip s = "".
Proof.
  induction s as [|c s IH]; [reflexivity|]. cbn [blank PyStr.rstrip].
  intros Hb. apply andb_prop in Hb as [Hc Hs]. now rewrite (IH Hs), Hc.
Qed.

Lemma lstrip_after_blank (pre s : string) :
  blank pre = true → PyStr.lstrip (pre +:+ s) = PyStr.lstrip s.
Proof.
  induction pre as [|c pre IH]; [reflexivity|]. cbn [blank].
  intros Hb. apply andb_prop in Hb as [Hc Hpre].
  rewrite append_cons. cbn [PyStr.lstrip]. rewrite Hc. now apply IH.
Qed.

Lemma rstrip_before_blank (s post : string) :
  blank post = true → PyStr.rstrip (s +:+ post) = PyStr.rstrip s.
Proof.
  intros Hb. induction s as [|c s IH]; [now apply rstrip_blank|].
  rewrite append_cons. cbn [PyStr.rstrip]. now rewrite IH.
Qed.

Lemma strip_before_blank (s post : string) :
  blank post = true → PyStr.strip (s +:+ post) = PyStr.strip s.
Proof.
  intros Hb. unfold PyStr.strip. induction s as [|c s IH].
  - rewrite append_nil_l, (lstrip_blank post Hb). reflexivity.
  - rewrite append_cons. cbn [PyStr.lstrip].
    destruct (PyStr.isspace c); [exact IH|].
    rewrite <- append_cons. now apply rstrip_before_blank.
Qed.

(** X16: whitespace around a line changes neither the query that is sent
    nor whether the line is a quit: the line is trimmed of any run of
    whitespace at both ends before it is looked at. *)
Theorem quit_detection_ignores_whitespace (pre post line : string) :
  blank pre = true → blank post = true →
  PyStr.strip (pre +:+ line +:+ post) = PyStr.strip line
  ∧ is_quit (pre +:+ line +:+ post) = is_quit line.
Proof.
  intros Hpre Hpost.
  assert (Hs : PyStr.strip (pre +:+ line +:+ post) = PyStr.strip line).
  { unfold PyStr.strip at 1. rewrite (lstrip_after_blank pre _ Hpre).
    now apply strip_before_blank. }
  split; [exact Hs|]. unfold is_quit. now rewrite Hs.
Qed.

Lemma quit_detection_ignores_whitespace_witness :
  blank (String PyStr.TAB " ") = true
  ∧ is_quit (String PyStr.TAB " " +:+ "Quit" +:+ "  ") = is_quit "Quit".
Proof.
  split; [reflexivity|].
  exact (proj2 (quit_detection_ignores_whitespace (String PyStr.TAB " ") "  " "Quit"
                  eq_refl eq_refl)).
Defined.

(** ** The stripped schema and the advertised tools *)

Lemma parameters_of_kept (schema : pydict pyval) :
  forallb (λ kv, Client.kept kv.1) schema = true → Client.parameters_of schema = schema.
Proof.
  induction schema as [|[k v] schema IH]; [reflexivity|]. cbn [forallb fst].
  intros Hall. apply andb_prop in Hall as [Hk Hrest].
  cbn [Client.parameters_of List.filter]. rewrite Hk. f_equal. now apply IH.
Qed.

Lemma parameters_of_all_kept (schema : pydict pyval) :
  forallb (λ kv, Client.kept kv.1) (Client.parameters_of schema) = true.
Proof.
  induction schema as [|[k v] schema IH]; [reflexivity|].
  cbn [Client.parameters_of List.filter]. fold (Client.parameters_of schema).
  destruct (Client.kept k) eqn:Hk; [|exact IH]. cbn [forallb fst]. now rewrite Hk.
Qed.

(** X17: stripping a schema twice is stripping it once; a schema that has
    neither of the two keys comes out as it is; and no schema comes out
    longer. *)
Theorem parameters_of_is_idempotent (schema : pydict pyval) :
  Client.parameters_of (Client.parameters_of schema) = Client.parameters_of schema
  ∧ (¬ In "additionalProperties" (dict_keys schema)
     ∧ ¬ In "$schema" (dict_keys schema) →
     Client.parameters_of schema = schema)
  ∧ length (Client.parameters_of schema) ≤ length schema.
Proof.
  split; [apply parameters_of_kept, parameters_of_all_kept|]. split.
  - intros [Ha Hs]. apply parameters_of_kept. apply forallb_forall.
    intros [k v] Hin. cbn [fst]. apply kept_spec. split; intros ->.
    + apply Ha. unfold dict_keys. now apply (in_map fst) in Hin.
    + apply Hs. unfold dict_keys. now apply (in_map fst) in Hin.
  - apply sublist_length, parameters_of_sublist.
Qed.

Section Advertised.
Context {W : Type} (E : Env W).
Implicit Types (s : state W) (w : W).

(** X18: the tools the local variant advertises to the model are the tools
    it can dispatch.  The declarations name [search_papers] and
    [extract_info]; a function call for either runs that tool with the
    arguments of the call, and a function call for any other name fails
    without running a tool. *)
Theorem advertised_tools_are_the_dispatched_ones query s w fname args :
  generate_content E [Tool Chatbot.TOOLS] query (world s)
  = (w, inr (FunctionCall fname args)) →
  declared_names Chatbot.TOOLS = ["search_papers"; "extract_info"]
  ∧ (fname = "search_papers" →
     Chatbot.process_query E query s
     = after (Generate query :: call_banner fname args)
         (call (search_papers E) args (State w (stdin s))))
  ∧ (fname = "extract_info" →
     Chatbot.process_query E query s
     = after (Generate query :: call_banner fname args)
         (call (extract_info E) args (State w (stdin s))))
  ∧ (¬ In fname (declared_names Chatbot.TOOLS) →
     Chatbot.process_query E query s
     = (State w (stdin s), Generate query :: call_banner fname args,
        Raise Chatbot.result_unbound)).
Proof.
  intros Hg. split; [reflexivity|].
  assert (Hrun : ∀ k : M W pyval,
             (if String.eqb fname "search_papers" then call (search_papers E) args
              else if String.eqb fname "extract_info" then call (extract_info E) args
              else raise Chatbot.result_unbound) = k →
             Chatbot.process_query E query s
             = after (Generate query :: call_banner fname args) (k (State w (stdin s)))).
  { intros k <-.
    unfold Chatbot.process_query, generate, mbind, M_bind, emit, ext, after.
    rewrite Hg. cbn [print emit app].
    match goal with |- context [?c (State w (stdin s))] =>
      destruct (c (State w (stdin s))) as [[s2 t2] r] end.
    reflexivity. }
  split; [|split].
  - intros ->. now apply Hrun.
  - intros ->. now apply Hrun.
  - intros Hno.
    change (declared_names Chatbot.TOOLS) with ["search_papers"; "extract_info"] in Hno.
    rewrite (Hrun (raise Chatbot.result_unbound)).
    + unfold after, raise. cbn [fst snd]. now rewrite app_nil_r.
    + destruct (String.eqb fname "search_papers") eqn:H1;
        [apply String.eqb_eq in H1; subst fname; exfalso; apply Hno; now left|].
      destruct (String.eqb fname "extract_info") eqn:H2;
        [apply String.eqb_eq in H2; subst fname; exfalso; apply Hno; right; now left
        | reflexivity].
Qed.

End Advertised.

(** ** The statements above on a concrete shelf *)

Lemma search_papers_stores_results_witness :
  start_dict Shelf.old_shelf
  = Some [("0001.0001v1", Shelf.stale); ("1310.7911v2", Shelf.stale)]
  ∧ (Papers.search_papers (Shelf.host Shelf.old_shelf Shelf.two_papers [])
       "Machine Learning" 5 tt).2
    = inr ["1310.7911v2"; "2401.00001v1"]
  ∧ dict_get "0001.0001v1"
      (stored [("0001.0001v1", Shelf.stale); ("1310.7911v2", Shelf.stale)]
         [Shelf.manifolds; Shelf.machines])
    = Some Shelf.stale.
Proof.
  split; [reflexivity|].
  destruct (search_papers_stores_results
              (Shelf.host Shelf.old_shelf Shelf.two_papers [])
              "Machine Learning" 5 tt tt tt Shelf.old_shelf
              [("0001.0001v1", Shelf.stale); ("1310.7911v2", Shelf.stale)] tt tt
              eq_refl eq_refl eq_refl eq_refl eq_refl) as (Hrun & _ & Hkept).
  split; [rewrite Hrun; reflexivity|].
  apply (Hkept "0001.0001v1"). cbn. intros [Heq | [Heq | []]]; discriminate Heq.
Defined.

Lemma search_papers_failure_writes_nothing_witness :
  ending Shelf.broken = (tt, Some Fixture.unreachable)
  ∧ Papers.search_papers (Shelf.host Shelf.old_shelf Shelf.broken [])
      "Machine Learning" 5 tt
    = (tt,
       [Papers.Makedirs "papers/machine_learning";
        Papers.Load "papers/machine_learning/papers_info.json";
        Papers.Search "Machine Learning" 5],
       inl Fixture.unreachable).
Proof.
  split; [reflexivity|].
  exact (proj1 (search_papers_failure_writes_nothing
                  (Shelf.host Shelf.old_shelf Shelf.broken [])
                  "Machine Learning" 5 tt tt tt Shelf.old_shelf eq_refl eq_refl)
           [("0001.0001v1", Shelf.stale); ("1310.7911v2", Shelf.stale)] tt
           Fixture.unreachable eq_refl eq_refl).
Defined.

Lemma extract_info_not_found_witness :
  Forall (item_skipped (Shelf.host (Papers.Loaded (VDict [])) (Papers.Stop tt)
                          ["computers"]) "1310.7911v2") ["computers"]
  ∧ (Papers.extract_info
       (Shelf.host (Papers.Loaded (VDict [])) (Papers.Stop tt) ["computers"])
       "1310.7911v2" tt).2
    = inr "There's no saved information related to paper 1310.7911v2.".
Proof.
  assert (Hall : Forall (item_skipped (Shelf.host (Papers.Loaded (VDict []))
                                         (Papers.Stop tt) ["computers"])
                           "1310.7911v2") ["computers"]).
  { constructor; [|constructor]. right. right. intros w. reflexivity. }
  split; [exact Hall|].
  exact (extract_info_not_found
           (Shelf.host (Papers.Loaded (VDict [])) (Papers.Stop tt) ["computers"])
           "1310.7911v2" tt tt ["computers"] eq_refl Hall).
Defined.

Lemma extract_info_first_hit_witness :
  item_holds (Shelf.host (Papers.Loaded (VDict Shelf.new_shelf)) (Papers.Stop tt)
                ["machine_learning"; "computers"])
    "1310.7911v2" "machine_learning" (Papers.paper_info Shelf.manifolds)
  ∧ (Papers.extract_info
       (Shelf.host (Papers.Loaded (VDict Shelf.new_shelf)) (Papers.Stop tt)
          ["machine_learning"; "computers"])
       "1310.7911v2" tt).2
    = inr (json_dumps (Papers.paper_info Shelf.manifolds)).
Proof.
  assert (Hitem : item_holds
                    (Shelf.host (Papers.Loaded (VDict Shelf.new_shelf)) (Papers.Stop tt)
                       ["machine_learning"; "computers"])
                    "1310.7911v2" "machine_learning"
                    (Papers.paper_info Shelf.manifolds)).
  { split; [intros w; reflexivity|]. split; [intros w; reflexivity|].
    intros w. eexists. split; reflexivity. }
  split; [exact Hitem|].
  exact (extract_info_first_hit
           (Shelf.host (Papers.Loaded (VDict Shelf.new_shelf)) (Papers.Stop tt)
              ["machine_learning"; "computers"])
           "1310.7911v2" tt tt "machine_learning" (Papers.paper_info Shelf.manifolds)
           [] ["computers"] eq_refl (List.Forall_nil _) Hitem).
Defined.

Lemma extract_info_stops_at_bad_file_witness :
  Papers.listdir (Shelf.host (Papers.Loaded (VInt 3)) (Papers.Stop tt)
                    ["computers"; "machine_learning"])
    Papers.PAPER_DIR tt
  = (tt, inr ["computers"; "machine_learning"])
  ∧ ∃ e,
      exn_kind e = TypeError
      ∧ Papers.extract_info
          (Shelf.host (Papers.Loaded (VInt 3)) (Papers.Stop tt)
             ["computers"; "machine_learning"])
          "1310.7911v2" tt
        = (tt,
           [Papers.Listdir "papers"; Papers.Load (item_file "computers")],
           inl e).
Proof.
  split; [reflexivity|].
  destruct (extract_info_stops_at_bad_file
              (Shelf.host (Papers.Loaded (VInt 3)) (Papers.Stop tt)
                 ["computers"; "machine_learning"])
              "1310.7911v2" tt tt "computers" (VInt 3) [] ["machine_learning"]
              eq_refl (List.Forall_nil _)
              (λ _, eq_refl) (λ _, eq_refl) (λ _, eq_refl) I)
    as (e & w2 & ops & Hk & Hrun & Hops & _).
  exists e. split; [exact Hk|].
  destruct ops as [|o ops]; [destruct w2; exact Hrun|].
  exfalso. apply Forall_cons in Hops as [(x & [] & _) _].
Defined.

Lemma extract_info_after_search_papers_witness :
  In Shelf.manifolds (yielded Shelf.two_papers)
  ∧ (Papers.extract_info
       (Shelf.host (Papers.Loaded (VDict Shelf.new_shelf)) (Papers.Stop tt)
          ["machine_learning"])
       "1310.7911v2" tt).2
    = inr (json_dumps (Papers.paper_info Shelf.manifolds)).
Proof.
  split; [now left|].
  destruct (extract_info_after_search_papers
              (Shelf.host Shelf.old_shelf Shelf.two_papers [])
              (Shelf.host (Papers.Loaded (VDict Shelf.new_shelf)) (Papers.Stop tt)
                 ["machine_learning"])
              "Machine Learning" 5 tt tt tt Shelf.old_shelf
              [("0001.0001v1", Shelf.stale); ("1310.7911v2", Shelf.stale)] tt tt
              Shelf.manifolds tt tt [] []
              eq_refl eq_refl eq_refl eq_refl eq_refl (or_introl eq_refl)
              eq_refl (List.Forall_nil _) (λ _, eq_refl) (λ _, eq_refl) (λ _, eq_refl))
    as (_ & _ & q & Hq & Hfound).
  vm_compute in Hq. injection Hq as <-. exact Hfound.
Defined.

Lemma main_startup_failure_is_fatal_witness :
  ending Shelf.broken = (tt, Some Fixture.unreachable)
  ∧ Papers.main (Shelf.host Shelf.old_shelf Shelf.broken []) Fixture.greeter 3
      (Fixture.start ["hello"; "quit"])
    = (Fixture.start ["hello"; "quit"], [], Raise Fixture.unreachable).
Proof.
  split; [reflexivity|].
  exact (main_startup_failure_is_fatal
           (Shelf.host Shelf.old_shelf Shelf.broken []) Fixture.greeter 3
           (Fixture.start ["hello"; "quit"]) tt tt Shelf.old_shelf
           [("0001.0001v1", Shelf.stale); ("1310.7911v2", Shelf.stale)] tt
           Fixture.unreachable eq_refl eq_refl eq_refl eq_refl).
Defined.

Lemma search_without_hits_shows_nothing_witness :
  is_quit "papers on x" = false
  ∧ Chatbot.chat_turn
      (Shelf.env (Shelf.host (Papers.NotFound "No such file") (Papers.Stop tt) [])
         (FunctionCall "search_papers" Fixture.topic_x) "x" "1310.7911v2")
      (Fixture.start ["papers on x"])
    = (Fixture.start [],
       [query_prompt; Generate "papers on x";
        Print "Function to call: search_papers";
        Print "Arguments: {'topic': 'x'}";
        Print "Results are saved in: papers/x/papers_info.json"],
       Ret Continue).
Proof.
  split; [reflexivity|].
  exact (search_without_hits_shows_nothing
           (Shelf.host (Papers.NotFound "No such file") (Papers.Stop tt) [])
           (Shelf.env (Shelf.host (Papers.NotFound "No such file") (Papers.Stop tt) [])
              (FunctionCall "search_papers" Fixture.topic_x) "x" "1310.7911v2")
           tt "papers on x" [] tt Fixture.topic_x "x" 5 tt tt
           (Papers.NotFound "No such file") tt tt
           eq_refl eq_refl eq_refl eq_refl eq_refl
           (λ e Heq, eq_ind (Papers.NotFound "No such file")
                       (λ r, match r with Papers.LoadError _ => False | _ => True end)
                       I _ Heq)
           eq_refl eq_refl).
Defined.

Lemma extract_info_answer_is_shown_witness :
  is_quit "what is 1310.7911v2" = false
  ∧ outcome_of
      (Chatbot.chat_turn
         (Shelf.env (Shelf.host (Papers.Loaded (VDict [])) (Papers.Stop tt) ["computers"])
            (FunctionCall "extract_info" [("paper_id", VStr "1310.7911v2")])
            "x" "1310.7911v2")
         (Fixture.start ["what is 1310.7911v2"]))
    = Ret Continue
  ∧ In (Print "There's no saved information related to paper 1310.7911v2.")
      (trace_of
         (Chatbot.chat_turn
            (Shelf.env (Shelf.host (Papers.Loaded (VDict [])) (Papers.Stop tt) ["computers"])
               (FunctionCall "extract_info" [("paper_id", VStr "1310.7911v2")])
               "x" "1310.7911v2")
            (Fixture.start ["what is 1310.7911v2"]))).
Proof.
  split; [reflexivity|].
  destruct (extract_info_answer_is_shown
              (Shelf.host (Papers.Loaded (VDict [])) (Papers.Stop tt) ["computers"])
              (Shelf.env (Shelf.host (Papers.Loaded (VDict [])) (Papers.Stop tt) ["computers"])
                 (FunctionCall "extract_info" [("paper_id", VStr "1310.7911v2")])
                 "x" "1310.7911v2")
              tt "what is 1310.7911v2" [] tt [("paper_id", VStr "1310.7911v2")]
              "1310.7911v2" tt
              [Papers.Listdir "papers"; Papers.Load "papers/computers/papers_info.json"]
              "There's no saved information related to paper 1310.7911v2."
              eq_refl eq_refl eq_refl eq_refl) as [_ Hturn].
  unfold Fixture.start. rewrite Hturn. split; [reflexivity|].
  unfold trace_of. cbn [fst snd]. apply in_cons, in_or_app. right.
  right. now left.
Defined.

Lemma one_dispatch_per_query_witness :
  quit_after 1 ["hello"; "quit"; "later"] = true
  ∧ stdin (Chatbot.chat_while Fixture.greeter 3
             (Fixture.start ["hello"; "quit"; "later"])).1.1 = ["later"]
  ∧ requests (trace_of (Chatbot.chat_while Fixture.greeter 3
                          (Fixture.start ["hello"; "quit"; "later"]))) = 1.
Proof.
  split; [reflexivity|].
  exact (proj1 (one_dispatch_per_query Fixture.greeter [] 1 3
                  (Fixture.start ["hello"; "quit"; "later"]) eq_refl) eq_refl).
Defined.

Lemma tool_answer_without_content_is_reported_witness :
  is_quit "papers on x" = false
  ∧ Client.chat_turn Fixture.failing [] (Fixture.start ["papers on x"])
    = (Fixture.start [],
       [query_prompt; Generate "papers on x";
        Print "Function to call: search_papers";
        Print "Arguments: {'topic': 'x'}";
        CallTool "search_papers" Fixture.topic_x; Print "Result:";
        Print (String PyStr.LF "Error: list index out of range")],
       Ret Continue).
Proof.
  split; [reflexivity|].
  exact (tool_answer_without_content_is_reported Fixture.failing [] tt "papers on x" []
           tt "search_papers" Fixture.topic_x tt (CallToolResult [])
           eq_refl eq_refl eq_refl eq_refl).
Defined.

Lemma advertised_tools_are_the_dispatched_ones_witness :
  ¬ In "echoCount" (declared_names Chatbot.TOOLS)
  ∧ Chatbot.process_query Fixture.confused "count x" (Fixture.start [])
    = (Fixture.start [],
       Generate "count x" :: call_banner "echoCount" Fixture.topic_x,
       Raise Chatbot.result_unbound).
Proof.
  assert (Hno : ¬ In "echoCount" (declared_names Chatbot.TOOLS)).
  { cbn. intros [Heq | [Heq | []]]; discriminate Heq. }
  split; [exact Hno|].
  destruct (advertised_tools_are_the_dispatched_ones Fixture.confused "count x"
              (Fixture.start []) tt "echoCount" Fixture.topic_x eq_refl)
    as (_ & _ & _ & Hother).
  exact (Hother Hno).
Defined.

(** ** The dict of [search_papers] and the directory of a topic *)

Lemma dict_set_keys {V} (k : string) (v : V) (d : pydict V) :
  dict_keys (Papers.dict_set k v d)
  = if existsb (String.eqb k) (dict_keys d) then dict_keys d else dict_keys d ++ [k].
Proof.
  unfold dict_keys. induction d as [|[k' v'] d IH]; [reflexivity|].
  cbn [Papers.dict_set List.map fst existsb].
  destruct (String.eqb k k') eqn:Hk; cbn [orb List.map fst].
  - apply String.eqb_eq in Hk. now subst k'.
  - rewrite IH. now destruct (existsb (String.eqb k) (List.map fst d)).
Qed.

Lemma dict_set_nodup {V} (k : string) (v : V) (d : pydict V) :
  List.NoDup (dict_keys d) → List.NoDup (dict_keys (Papers.dict_set k v d)).
Proof.
  intros Hd. rewrite dict_set_keys.
  destruct (existsb (String.eqb k) (dict_keys d)) eqn:Hk; [exact Hd|].
  assert (Hnot : ¬ In k (dict_keys d)).
  { intros Hin. assert (Hex : existsb (String.eqb k) (dict_keys d) = true).
    { apply existsb_exists. exists k. split; [exact Hin | apply String.eqb_refl]. }
    congruence. }
  clear Hk. induction (dict_keys d) as [|x l IH]; cbn [app].
  - constructor; [intros [] | constructor].
  - inversion Hd as [|? ? Hx Hl]; subst. constructor.
    + intros Hin. apply in_app_or in Hin as [Hin | [<- | []]]; [now apply Hx|].
      apply Hnot. now left.
    + apply IH; [exact Hl|]. intros Hin. apply Hnot. now right.
Qed.

Lemma stored_keys (ps : list Papers.paper) (d : pydict pyval) :
  (∃ new, dict_keys (stored d ps) = dict_keys d ++ new)
  ∧ (List.NoDup (dict_keys d) → List.NoDup (dict_keys (stored d ps))).
Proof.
  revert d. induction ps as [|p ps IH]; intros d.
  - split; [exists []; now rewrite app_nil_r | tauto].
  - unfold stored in *. cbn [fold_left].
    destruct (IH (Papers.dict_set (Papers.short_id p) (Papers.paper_info p) d))
      as [[new Hnew] Hdup].
    split.
    + rewrite Hnew, dict_set_keys.
      destruct (existsb _ (dict_keys d)); [now exists new|].
      exists ([Papers.short_id p] ++ new). now rewrite app_assoc.
    + intros Hd. now apply Hdup, dict_set_nodup.
Qed.


Section Bookkeeping.
Context {W : Type}.
Implicit Types (g : Papers.fetched W) (w : W).

(** X19: the loop over the results keeps the dict in order.  When it ends
    without an exception on a dict, the outcome is a dict again: the keys the
    dict had come first and in their order, the keys are still distinct if
    they were, and one identifier was appended to the list for every result. *)
Theorem collect_keeps_the_dict_in_order g (d : pydict pyval) (ids : list string)
    w (v' : pyval) (ids' : list string) :
  Papers.collect g (VDict d) ids = (w, inr (v', ids')) →
  ∃ d',
    v' = VDict d'
    ∧ (∃ new, dict_keys d' = dict_keys d ++ new)
    ∧ (List.NoDup (dict_keys d) → List.NoDup (dict_keys d'))
    ∧ ids' = ids ++ List.map Papers.short_id (yielded g).
Proof.
  rewrite collect_dict. destruct (ending g) as [w0 [e|]]; [discriminate|].
  intros Heq. injection Heq as _ <- <-.
  exists (stored d (yielded g)). split; [reflexivity|].
  destruct (stored_keys (yielded g) d) as [Hpre Hdup].
  split; [exact Hpre|]. split; [exact Hdup | reflexivity].
Qed.

End Bookkeeping.

Lemma collect_keeps_the_dict_in_order_witness :
  Papers.collect Shelf.two_papers
    (VDict [("0001.0001v1", Shelf.stale); ("1310.7911v2", Shelf.stale)]) []
  = (tt, inr (VDict Shelf.new_shelf, ["1310.7911v2"; "2401.00001v1"]))
  ∧ ∃ new, dict_keys Shelf.new_shelf = ["0001.0001v1"; "1310.7911v2"] ++ new.
Proof.
  split; [reflexivity|].
  destruct (collect_keeps_the_dict_in_order Shelf.two_papers
              [("0001.0001v1", Shelf.stale); ("1310.7911v2", Shelf.stale)] [] tt
              (VDict Shelf.new_shelf) ["1310.7911v2"; "2401.00001v1"] eq_refl)
    as (d' & Hd' & Hnew & _).
  injection Hd' as <-. exact Hnew.
Defined.


Section BaseExceptions.
Context {W : Type} (E : Env W).
Implicit Types (s : state W) (w : W).

Lemma chatbot_while_raise n s s1 t1 e :
  Chatbot.chat_turn E s = (s1, t1, Raise e) →
  Chatbot.chat_while E (S n) s = (s1, t1, Raise e).
Proof.
  intros Ht. cbn [Chatbot.chat_while]. unfold mbind, M_bind. now rewrite Ht.
Qed.

(** X21: an exception that is no [Exception] (a keyboard interrupt, a
    cancellation, an exit) raised while a query is processed is not caught by
    the local loop: the loop ends with it, prints no error line and reads no
    further line. *)
Theorem base_exception_ends_the_local_loop w line rest s1 t1 e n :
  is_quit line = false →
  is_Exception e = false →
  Chatbot.process_query E (PyStr.strip line) (State w rest) = (s1, t1, Raise e) →
  Chatbot.chat_loop E (S n) (State w (line :: rest))
  = (s1, Print "Type your queries or 'quit' to exit." :: query_prompt :: t1, Raise e)
  ∧ stdin s1 = rest.
Proof.
  intros Hq He Hpq.
  pose proof (chatbot_turn_query E w line rest s1 t1 _ Hq Hpq) as Ht.
  cbn match in Ht. rewrite He in Ht.
  split.
  - unfold Chatbot.chat_loop, mbind, M_bind, print, emit.
    now rewrite (chatbot_while_raise n _ _ _ _ Ht).
  - destruct (chatbot_process_query_tame E (PyStr.strip line) (State w rest))
      as (Hin & _ & _).
    rewrite Hpq in Hin. exact Hin.
Qed.

End BaseExceptions.

Lemma base_exception_ends_the_local_loop_witness :
  is_Exception (Exn KeyboardInterrupt "") = false
  ∧ Chatbot.chat_loop
      (Fixture.env (FunctionCall "search_papers" Fixture.topic_x)
         (Fixture.raises (Exn KeyboardInterrupt "")) (Fixture.ok tt) [] [])
      2 (Fixture.start ["papers on x"; "quit"])
    = (Fixture.start ["quit"],
       Print "Type your queries or 'quit' to exit."
         :: query_prompt
         :: Generate "papers on x" :: call_banner "search_papers" Fixture.topic_x,
       Raise (Exn KeyboardInterrupt "")).
Proof.
  split; [reflexivity|].
  exact (proj1 (base_exception_ends_the_local_loop
                  (Fixture.env (FunctionCall "search_papers" Fixture.topic_x)
                     (Fixture.raises (Exn KeyboardInterrupt "")) (Fixture.ok tt) [] [])
                  tt "papers on x" ["quit"] (Fixture.start ["quit"])
                  (Generate "papers on x" :: call_banner "search_papers" Fixture.topic_x)
                  (Exn KeyboardInterrupt "") 1 eq_refl eq_refl eq_refl)).
Defined.
